(** * Digital locker: the document helpers of [src/lib/date-utils.ts]

    A shallow embedding of the filename codec ([parseFilename] and the key
    built by [uploadDocument]), of the trash life cycle ([moveToTrash],
    [restoreFromTrash], [deletePermanent], [purgeOldTrash]) and of the two
    listings ([listUserTrash], [listUserDocuments]).

    The helpers talk to a hosted object store and to hosted tables through a
    client whose calls answer with a [{ data, error }] pair.  Each function is
    embedded as a finite tree of such calls ([Prog]); [run] executes a tree
    against any backend and records the calls issued, in order. *)

From Stdlib Require Import ZArith Ascii DecimalString.
From Stdlib Require DecimalZ DecimalPos.
From stdpp Require Import base option list strings sorting gmap.

Local Open Scope Z_scope.

(** ** JavaScript string primitives used by the helpers

    Strings are sequences of 8-bit characters, one for each UTF-16 unit of
    the JavaScript string: text whose units are all below 256, ASCII in
    particular, is what the model covers.  Every regular expression and
    separator of the helpers tests one unit at a time, so on such text the
    primitives below follow the JavaScript ones character by character. *)

Module Js.

(** [s.split(sep)] for a one-character separator: never the empty array. *)
Fixpoint split (sep : ascii) (s : string) : list string :=
  match s with
  | EmptyString => [EmptyString]
  | String a r =>
      if Ascii.eqb a sep then EmptyString :: split sep r
      else match split sep r with
           | [] => [String a EmptyString]
           | h :: t => String a h :: t
           end
  end.

(** [parts.join(sep)]. *)
Fixpoint join (sep : string) (parts : list string) : string :=
  match parts with
  | [] => EmptyString
  | [p] => p
  | p :: rest => p +:+ sep +:+ join sep rest
  end.

(** [parts.pop()]: the last element, [undefined] on the empty array. *)
Definition pop (parts : list string) : option string := last parts.

(** [parts.slice(n)]. *)
Definition slice (n : nat) (parts : list string) : list string := drop n parts.

(** A value of type [string | undefined] inside a template literal. *)
Definition tpl (o : option string) : string := default "undefined" o.

(** [o || fallback] for [o : string | undefined]: the empty string is falsy. *)
Definition or_else (o : option string) (fallback : string) : string :=
  match o with
  | Some (String a r) => String a r
  | _ => fallback
  end.

(** [s.includes(c)] for a one-character needle. *)
Fixpoint includes (c : ascii) (s : string) : bool :=
  match s with
  | EmptyString => false
  | String a r => Ascii.eqb a c || includes c r
  end.

(** [s.startsWith(p)]. *)
Fixpoint startsWith (p s : string) : bool :=
  match p, s with
  | EmptyString, _ => true
  | String a p', String b s' => Ascii.eqb a b && startsWith p' s'
  | String _ _, EmptyString => false
  end.

(** [s] is truthy: not the empty string. *)
Definition truthy (s : string) : bool :=
  match s with EmptyString => false | String _ _ => true end.

Fixpoint map_chars (f : ascii -> ascii) (s : string) : string :=
  match s with
  | EmptyString => EmptyString
  | String a r => String (f a) (map_chars f r)
  end.

Fixpoint all_chars (p : ascii -> bool) (s : string) : bool :=
  match s with
  | EmptyString => true
  | String a r => p a && all_chars p r
  end.

Definition in_range (lo hi a : ascii) : bool :=
  (N_of_ascii lo <=? N_of_ascii a)%N && (N_of_ascii a <=? N_of_ascii hi)%N.

(** The class [[a-zA-Z0-9]]. *)
Definition is_alnum (a : ascii) : bool :=
  in_range "a" "z" a || in_range "A" "Z" a || in_range "0" "9" a.

(** The class [\w], that is [[A-Za-z0-9_]]. *)
Definition is_word (a : ascii) : bool := is_alnum a || Ascii.eqb a "_".

(** [s.replace(/[^a-zA-Z0-9]/g, '_')]. *)
Definition replace_non_alnum (s : string) : string :=
  map_chars (fun a => if is_alnum a then a else "_"%char) s.

(** [s.replace(/_/g, ' ')]. *)
Definition replace_underscores (s : string) : string :=
  map_chars (fun a => if Ascii.eqb a "_" then " "%char else a) s.

(** [/\.\w+$/] matches at the head of [s]: a dot, then one or more word
    characters, then the end of the input. *)
Definition ext_at_head (s : string) : bool :=
  match s with
  | String a r => Ascii.eqb a "." && truthy r && all_chars is_word r
  | EmptyString => false
  end.

(** [s.replace(/\.\w+$/, '')]: the leftmost match is removed; with the
    anchor [$] it runs to the end of the input. *)
Fixpoint strip_ext (s : string) : string :=
  match s with
  | EmptyString => EmptyString
  | String a r => if ext_at_head s then EmptyString else String a (strip_ext r)
  end.

(** A letter, a digit or a space: the display names of the round trip. *)
Definition is_alnum_or_space (a : ascii) : bool :=
  is_alnum a || Ascii.eqb a " ".

(** A decimal digit or the minus sign. *)
Definition is_numeral (a : ascii) : bool :=
  in_range "0" "9" a || Ascii.eqb a "-".

(** A number in a template literal; the timestamps of [Date.now()] are
    integers, printed in decimal. *)
Definition of_number (n : Z) : string := NilZero.string_of_int (Z.to_int n).

End Js.

(** ** The filename codec *)

Record Parsed := { category : string; displayName : string }.

(** [parseFilename], lines 271-283.  Under the guard [parts.length >= 3] the
    index [parts[1]] is always defined. *)
Definition parseFilename (filename : string) : Parsed :=
  let parts := Js.split "_" filename in
  if decide (3 <= length parts)%nat then
    let nameWithExt := Js.join "_" (Js.slice 2 parts) in
    {| category := Js.tpl (parts !! 1%nat);
       displayName := Js.replace_underscores (Js.strip_ext nameWithExt) |}
  else
    {| category := "other"; displayName := filename |}.

(** The key template of [uploadDocument], line 52, after the prefix:
    [`${Date.now()}_${category}_${safeName}.${fileExt}`]. *)
Definition encodeKey (now : Z) (category safeName : string)
    (fileExt : option string) : string :=
  Js.of_number now +:+ "_" +:+ category +:+ "_" +:+ safeName +:+ "."
    +:+ Js.tpl fileExt.

(** ** The remote stores, as seen through the client *)

Definition Error := string.

(** The browser [File] handed to [uploadDocument]. *)
Module File.
Record t := { name : string; type : string; size : N }.
End File.

(** An entry of a storage listing: folders come back without metadata. *)
Module FileObject.
Record Metadata := { size : option N }.
Record t := { name : string; created_at : string; metadata : option Metadata }.

(** [obj.metadata?.size || 0]. *)
Definition size_or_0 (obj : t) : N :=
  match metadata obj with
  | Some m => default 0%N (size m)
  | None => 0%N
  end.
End FileObject.

Inductive Table := smart_folder_assignments | document_shares | deleted_documents.

(** The row written to [deleted_documents]. *)
Record TrackingRow :=
  { user_id : string; document_path : string; document_name : string }.

(** A listing answers with [{ data, error: null }] or [{ data: null, error }]. *)
Inductive Listing :=
| ListOk (data : list FileObject.t)
| ListErr (error : Error).

(** The entries a listing reply carries: none when the listing failed. *)
Definition entries (reply : Listing) : list FileObject.t :=
  match reply with ListOk data => data | ListErr _ => [] end.

(** The calls the helpers make.  The bucket is always ["documents"]; listings
    always sort by [created_at], descending; uploads always pass
    [cacheControl: "3600"], [upsert: false] and the file's content type.  A
    call answers with a reply object and does not reject. *)
Inductive Call :=
| StorageUpload (path : string) (file : File.t)
| StorageCopy (src dest : string)
| StorageRemove (paths : list string)
| StorageList (prefix : string) (limit : nat)
| TableDelete (table : Table) (userId documentPath : string)
| TableUpsert (table : Table) (row : TrackingRow)
| DateNow
| ConsoleWarn (msg : string) (err : Error)
| ConsoleError (msg : string) (err : Error).

(** What each call answers: the [error] field of the reply, a listing, the
    clock in epoch milliseconds, or nothing. *)
Definition Resp (c : Call) : Type :=
  match c with
  | StorageUpload _ _ | StorageCopy _ _ | StorageRemove _
  | TableDelete _ _ _ | TableUpsert _ _ => option Error
  | StorageList _ _ => Listing
  | DateNow => Z
  | ConsoleWarn _ _ | ConsoleError _ _ => unit
  end.

(** A remote call, as opposed to the clock and the console. *)
Definition is_remote (c : Call) : bool :=
  match c with
  | DateNow | ConsoleWarn _ _ | ConsoleError _ _ => false
  | _ => true
  end.

(** ** Asynchronous functions as call trees *)

Inductive Prog (A : Type) : Type :=
| Ret (a : A)
| Throw (e : Error)
| Vis (c : Call) (k : Resp c -> Prog A).
Arguments Ret {A} a.
Arguments Throw {A} e.
Arguments Vis {A} c k.

Fixpoint bind {A B} (p : Prog A) (f : A -> Prog B) : Prog B :=
  match p with
  | Ret a => f a
  | Throw e => Throw e
  | Vis c k => Vis c (fun r => bind (k r) f)
  end.

(** [try { p } catch (error) { h error }]. *)
Fixpoint try_catch {A} (p : Prog A) (h : Error -> Prog A) : Prog A :=
  match p with
  | Ret a => Ret a
  | Throw e => h e
  | Vis c k => Vis c (fun r => try_catch (k r) h)
  end.

Declare Scope prog_scope.
Delimit Scope prog_scope with prog.
Bind Scope prog_scope with Prog.
Notation "x <- p ;; q" := (bind p (fun x => q))
  (at level 100, p at next level, q at level 200, right associativity)
  : prog_scope.
Notation "p ;; q" := (bind p (fun _ => q))
  (at level 100, q at level 200, right associativity) : prog_scope.
Local Open Scope prog_scope.

(** [await] of one client call. *)
Definition call (c : Call) : Prog (Resp c) := Vis c Ret.

(** [if (err) throw err]. *)
Definition throw_if (err : option Error) : Prog unit :=
  match err with Some e => Throw e | None => Ret tt end.

(** [if (err) console.warn(msg, err)]. *)
Definition warn_if (msg : string) (err : option Error) : Prog unit :=
  match err with Some e => call (ConsoleWarn msg e) | None => Ret tt end.

Inductive Outcome (A : Type) : Type :=
| Returned (a : A)
| Raised (e : Error).
Arguments Returned {A} a.
Arguments Raised {A} e.

(** Running a tree against a backend: the outcome, the backend afterwards and
    the calls issued, first to last. *)
Section Run.
Context {World : Type} (respond : forall c : Call, World -> Resp c * World).

Fixpoint run {A} (p : Prog A) (w : World) : Outcome A * World * list Call :=
  match p with
  | Ret a => (Returned a, w, [])
  | Throw e => (Raised e, w, [])
  | Vis c k =>
      let '(r, w1) := respond c w in
      let '(o, w2, calls) := run (k r) w1 in
      (o, w2, c :: calls)
  end.
End Run.

(** ** The helpers *)

(** What [uploadDocument] and [restoreFromTrash] return. *)
Module Stored.
Record t := { publicUrl : string; path : string }.
End Stored.

(** An element of [listUserTrash]. *)
Module TrashRecord.
Record t :=
  { name : string; path : string; publicUrl : string; size : N;
    deletedAt : string }.
End TrashRecord.

(** An element of [listUserDocuments]. *)
Module DocumentRecord.
Record t :=
  { name : string; path : string; publicUrl : string; size : N;
    category : string; created_at : string }.
End DocumentRecord.

Section Helpers.
(** [supabase.storage.from("documents").getPublicUrl(path).data.publicUrl]:
    computed by the client from its configuration, without a request. *)
Variable getPublicUrl : string -> string.
(** [new Date(s).getTime()]; [None] stands for [NaN]. *)
Variable getTime : string -> option Z.

(** [uploadDocument], lines 47-67. *)
Definition uploadDocument (userId : string) (file : File.t)
    (name category : string) (isPrivate : bool) : Prog Stored.t :=
  let fileExt := Js.pop (Js.split "." (File.name file)) in
  let safeName := Js.replace_non_alnum name in
  let prefix := if isPrivate then userId +:+ "/private" else userId in
  now <- call DateNow ;;
  let filePath := prefix +:+ "/" +:+ encodeKey now category safeName fileExt in
  error <- call (StorageUpload filePath file) ;;
  throw_if error ;;
  Ret {| Stored.publicUrl := getPublicUrl filePath; Stored.path := filePath |}.

(** [cleanupDocumentReferences], lines 150-187. *)
Definition cleanupDocumentReferences (userId documentPath : string)
    : Prog unit :=
  try_catch
    (assignmentErr <-
       call (TableDelete smart_folder_assignments userId documentPath) ;;
     warn_if "Failed to clean up folder assignments:" assignmentErr ;;
     shareErr <- call (TableDelete document_shares userId documentPath) ;;
     warn_if "Failed to clean up document shares:" shareErr ;;
     deletedErr <- call (TableDelete deleted_documents userId documentPath) ;;
     warn_if "Failed to clean up deleted documents tracking:" deletedErr)
    (fun error =>
       call (ConsoleError "Error cleaning up document references:" error)).

(** [moveToTrash], lines 71-98. *)
Definition moveToTrash (userId path : string) : Prog unit :=
  let filename := Js.pop (Js.split "/" path) in
  let dest := userId +:+ "/trash/" +:+ Js.tpl filename in
  copyErr <- call (StorageCopy path dest) ;;
  throw_if copyErr ;;
  delErr <- call (StorageRemove [path]) ;;
  throw_if delErr ;;
  cleanupDocumentReferences userId path ;;
  trackErr <-
    call (TableUpsert deleted_documents
            {| user_id := userId;
               document_path := path;
               document_name := Js.or_else filename "unknown" |}) ;;
  warn_if "Failed to track deleted document:" trackErr.

(** [restoreFromTrash], lines 100-124. *)
Definition restoreFromTrash (userId filename : string) : Prog Stored.t :=
  let src := userId +:+ "/trash/" +:+ filename in
  now <- call DateNow ;;
  let dest := userId +:+ "/" +:+ Js.of_number now +:+ "_" +:+ filename in
  copyErr <- call (StorageCopy src dest) ;;
  throw_if copyErr ;;
  call (StorageRemove [src]) ;;
  trackErr <- call (TableDelete deleted_documents userId src) ;;
  warn_if "Failed to remove from deleted documents tracking:" trackErr ;;
  Ret {| Stored.path := dest; Stored.publicUrl := getPublicUrl dest |}.

(** The callback of the [map] in [listUserTrash], lines 133-136. *)
Definition trashRecord (userId : string) (obj : FileObject.t)
    : TrashRecord.t :=
  {| TrashRecord.name := FileObject.name obj;
     TrashRecord.path := userId +:+ "/trash/" +:+ FileObject.name obj;
     TrashRecord.publicUrl :=
       getPublicUrl (userId +:+ "/trash/" +:+ FileObject.name obj);
     TrashRecord.size := FileObject.size_or_0 obj;
     TrashRecord.deletedAt := FileObject.created_at obj |}.

(** [listUserTrash], lines 126-138. *)
Definition listUserTrash (userId : string) : Prog (list TrashRecord.t) :=
  reply <- call (StorageList (userId +:+ "/trash") 100) ;;
  match reply with
  | ListErr error => Throw error
  | ListOk data => Ret (map (trashRecord userId) data)
  end.

(** [deletePermanent], lines 140-147. *)
Definition deletePermanent (path : string) : Prog unit :=
  call (StorageRemove [path]) ;;
  let userId := Js.tpl (Js.split "/" path !! 0%nat) in
  cleanupDocumentReferences userId path.

(** The predicate of the [filter] in [purgeOldTrash], line 192. *)
Definition purgeable (threshold : Z) (t : TrashRecord.t) : bool :=
  (0 <? TrashRecord.size t)%N
  && match getTime (TrashRecord.deletedAt t) with
     | Some ms => ms <? threshold
     | None => false
     end.

(** [purgeOldTrash], lines 189-196; callers that omit [days] get 30. *)
Definition purgeOldTrash (userId : string) (days : Z) : Prog unit :=
  now <- call DateNow ;;
  let threshold := now - days * 24 * 60 * 60 * 1000 in
  trash <- listUserTrash userId ;;
  let toDelete :=
    map TrashRecord.path (List.filter (purgeable threshold) trash) in
  if (0 <? length toDelete)%nat
  then (call (StorageRemove toDelete) ;; Ret tt)
  else Ret tt.

(** The predicate of both [filter]s in [listUserDocuments], lines 228, 246. *)
Definition isFile (obj : FileObject.t) : bool :=
  Js.truthy (FileObject.name obj)
  && Js.includes "." (FileObject.name obj)
  && (0 <? FileObject.size_or_0 obj)%N.

(** The callback of the [map] over the regular listing, lines 229-242. *)
Definition regularDoc (userId : string) (obj : FileObject.t)
    : DocumentRecord.t :=
  let fullPath := userId +:+ "/" +:+ FileObject.name obj in
  let parsed := parseFilename (FileObject.name obj) in
  {| DocumentRecord.name := displayName parsed;
     DocumentRecord.path := fullPath;
     DocumentRecord.publicUrl := getPublicUrl fullPath;
     DocumentRecord.size := FileObject.size_or_0 obj;
     DocumentRecord.category := category parsed;
     DocumentRecord.created_at := FileObject.created_at obj |}.

(** The callback of the [map] over the private listing, lines 247-260. *)
Definition privateDoc (userId : string) (obj : FileObject.t)
    : DocumentRecord.t :=
  let fullPath := userId +:+ "/private/" +:+ FileObject.name obj in
  let parsed := parseFilename (FileObject.name obj) in
  {| DocumentRecord.name := displayName parsed;
     DocumentRecord.path := fullPath;
     DocumentRecord.publicUrl := getPublicUrl fullPath;
     DocumentRecord.size := FileObject.size_or_0 obj;
     DocumentRecord.category := "private";
     DocumentRecord.created_at := FileObject.created_at obj |}.

(** [listUserDocuments], lines 198-268.  A failed listing has [data: null],
    which [privateData || []] turns into the empty array. *)
Definition listUserDocuments (userId : string)
    : Prog (list DocumentRecord.t) :=
  try_catch
    (regular <- call (StorageList userId 100) ;;
     regularData <-
       match regular with
       | ListErr regularError =>
           call (ConsoleError "Error listing regular documents:" regularError) ;;
           Throw regularError
       | ListOk data => Ret data
       end ;;
     private <- call (StorageList (userId +:+ "/private") 100) ;;
     privateData <-
       match private with
       | ListErr privateError =>
           call (ConsoleError "Error listing private documents:" privateError) ;;
           Ret []
       | ListOk data => Ret data
       end ;;
     let regularDocs := map (regularDoc userId) (List.filter isFile regularData) in
     let privateDocs := map (privateDoc userId) (List.filter isFile privateData) in
     Ret (regularDocs ++ privateDocs))
    (fun error =>
       call (ConsoleError "Error in listUserDocuments:" error) ;;
       Throw error).
End Helpers.

(** ** A reference backend

    The theorems below hold for every backend.  This one is an in-memory
    stand-in for the hosted stores, used to run the helpers on concrete
    data: a bucket of objects by key, the three tables, a clock, a console
    and a switch that makes chosen calls fail.  A call that fails changes
    nothing. *)

Module Backend.
Record Object := { size : N; created_at : string }.

Record t :=
  { objects : gmap string Object;
    assignments : list (string * string);
    shares : list (string * string);
    tracked : list TrackingRow;
    clock : Z;
    clock_iso : string;
    outage : Call -> option Error;
    console : list Call }.

Definition with_objects (o : gmap string Object) (b : t) : t :=
  {| objects := o; assignments := assignments b; shares := shares b;
     tracked := tracked b; clock := clock b; clock_iso := clock_iso b;
     outage := outage b; console := console b |}.

Definition with_console (l : list Call) (b : t) : t :=
  {| objects := objects b; assignments := assignments b; shares := shares b;
     tracked := tracked b; clock := clock b; clock_iso := clock_iso b;
     outage := outage b; console := l |}.

Definition with_tables (a s : list (string * string)) (d : list TrackingRow)
    (b : t) : t :=
  {| objects := objects b; assignments := a; shares := s; tracked := d;
     clock := clock b; clock_iso := clock_iso b; outage := outage b;
     console := console b |}.

Fixpoint strip_prefix (p s : string) : option string :=
  match p, s with
  | EmptyString, _ => Some s
  | String a p', String b s' =>
      if Ascii.eqb a b then strip_prefix p' s' else None
  | String _ _, EmptyString => None
  end.

(** What a key contributes to the listing of [prefix]: a file when it lies
    directly below, the marker of its first folder otherwise. *)
Definition entry (prefix : string) (kv : string * Object)
    : option FileObject.t :=
  match strip_prefix (prefix +:+ "/") kv.1 with
  | None => None
  | Some rest =>
      match Js.split "/" rest with
      | [] => None
      | [name] =>
          Some {| FileObject.name := name;
                  FileObject.created_at := created_at kv.2;
                  FileObject.metadata :=
                    Some {| FileObject.size := Some (size kv.2) |} |}
      | folder :: _ =>
          Some {| FileObject.name := folder;
                  FileObject.created_at := "";
                  FileObject.metadata := None |}
      end
  end.

#[global] Instance metadata_eq_dec : EqDecision FileObject.Metadata.
Proof. solve_decision. Defined.
#[global] Instance file_object_eq_dec : EqDecision FileObject.t.
Proof. solve_decision. Defined.

Definition newer_first (x y : FileObject.t) : Prop :=
  String.le (FileObject.created_at y) (FileObject.created_at x).
#[global] Instance newer_first_dec : RelDecision newer_first.
Proof. intros x y. unfold newer_first. apply _. Defined.

Definition list_dir (prefix : string) (limit : nat) (b : t)
    : list FileObject.t :=
  take limit
    (merge_sort newer_first
       (remove_dups (omap (entry prefix) (map_to_list (objects b))))).

Definition row_is (userId documentPath : string) (r : string * string)
    : bool :=
  String.eqb r.1 userId && String.eqb r.2 documentPath.

Definition tracks (userId documentPath : string) (r : TrackingRow) : bool :=
  String.eqb (user_id r) userId && String.eqb (document_path r) documentPath.

Definition delete_rows (table : Table) (userId documentPath : string)
    (b : t) : t :=
  let keep := fun r => negb (row_is userId documentPath r) in
  match table with
  | smart_folder_assignments =>
      with_tables (List.filter keep (assignments b)) (shares b) (tracked b) b
  | document_shares =>
      with_tables (assignments b) (List.filter keep (shares b)) (tracked b) b
  | deleted_documents =>
      with_tables (assignments b) (shares b)
        (List.filter (fun r => negb (tracks userId documentPath r))
           (tracked b)) b
  end.

(** An upsert replaces the row with the same user and path, if any. *)
Definition upsert_row (table : Table) (row : TrackingRow) (b : t) : t :=
  match table with
  | deleted_documents =>
      with_tables (assignments b) (shares b)
        (row :: List.filter
                  (fun r => negb (tracks (user_id row) (document_path row) r))
                  (tracked b)) b
  | smart_folder_assignments =>
      with_tables
        ((user_id row, document_path row)
           :: List.filter
                (fun r => negb (row_is (user_id row) (document_path row) r))
                (assignments b))
        (shares b) (tracked b) b
  | document_shares =>
      with_tables (assignments b)
        ((user_id row, document_path row)
           :: List.filter
                (fun r => negb (row_is (user_id row) (document_path row) r))
                (shares b))
        (tracked b) b
  end.

Definition respond (c : Call) (b : t) : Resp c * t :=
  match c return Resp c * t with
  | DateNow => (clock b, b)
  | ConsoleWarn msg err => (tt, with_console (console b ++ [ConsoleWarn msg err]) b)
  | ConsoleError msg err => (tt, with_console (console b ++ [ConsoleError msg err]) b)
  | StorageList prefix limit =>
      match outage b (StorageList prefix limit) with
      | Some e => (ListErr e, b)
      | None => (ListOk (list_dir prefix limit b), b)
      end
  | StorageUpload path file =>
      match outage b (StorageUpload path file), objects b !! path with
      | Some e, _ => (Some e, b)
      | None, Some _ => (Some "The resource already exists", b)
      | None, None =>
          (None,
           with_objects
             (<[path := {| size := File.size file;
                           created_at := clock_iso b |}]> (objects b)) b)
      end
  | StorageCopy src dest =>
      match outage b (StorageCopy src dest), objects b !! src with
      | Some e, _ => (Some e, b)
      | None, None => (Some "Object not found", b)
      | None, Some o =>
          (None,
           with_objects
             (<[dest := {| size := size o; created_at := clock_iso b |}]>
                (objects b)) b)
      end
  | StorageRemove paths =>
      match outage b (StorageRemove paths) with
      | Some e => (Some e, b)
      | None =>
          (None,
           with_objects (foldr (fun k m => delete k m) (objects b) paths) b)
      end
  | TableDelete table userId documentPath =>
      match outage b (TableDelete table userId documentPath) with
      | Some e => (Some e, b)
      | None => (None, delete_rows table userId documentPath b)
      end
  | TableUpsert table row =>
      match outage b (TableUpsert table row) with
      | Some e => (Some e, b)
      | None => (None, upsert_row table row b)
      end
  end.
End Backend.

(** ** A small fixture: one user with regular, private and trashed files *)

Module Demo.
Definition getPublicUrl (path : string) : string :=
  "https://demo.supabase.co/storage/v1/object/public/documents/" +:+ path.

(** [new Date(s).getTime()] on the timestamps of the fixture. *)
Definition getTime (s : string) : option Z :=
  if String.eqb s "2024-04-01T00:00:00.000Z" then Some 1711929600000
  else if String.eqb s "2024-03-31T00:00:00.000Z" then Some 1711843200000
  else if String.eqb s "2024-03-01T00:00:00.000Z" then Some 1709251200000
  else if String.eqb s "2024-02-21T00:00:00.000Z" then Some 1708473600000
  else None.

Definition obj (size : N) (created_at : string) : Backend.Object :=
  {| Backend.size := size; Backend.created_at := created_at |}.

Definition bucket : gmap string Backend.Object :=
  list_to_map
    [ ("u1/1709251200000_tax_Return_2023.pdf", obj 5 "2024-03-01T00:00:00.000Z");
      ("u1/notes", obj 7 "2024-03-01T00:00:00.000Z");
      ("u1/1709251200000_id_Empty.pdf", obj 0 "2024-03-01T00:00:00.000Z");
      ("u1/private/1711843200000_medical_Blood_Test.pdf",
       obj 9 "2024-03-31T00:00:00.000Z");
      ("u1/trash/1709251200000_old_Lease.pdf", obj 5 "2024-03-01T00:00:00.000Z");
      ("u1/trash/1711843200000_new_Bill.pdf", obj 5 "2024-03-31T00:00:00.000Z");
      ("u1/trash/.emptyFolderPlaceholder", obj 0 "2024-02-21T00:00:00.000Z") ].

Definition healthy : Call -> option Error := fun _ => None.

Definition backend : Backend.t :=
  {| Backend.objects := bucket;
     Backend.assignments := [("u1", "u1/1709251200000_tax_Return_2023.pdf")];
     Backend.shares := [];
     Backend.tracked := [];
     Backend.clock := 1711929600000;
     Backend.clock_iso := "2024-04-01T00:00:00.000Z";
     Backend.outage := healthy;
     Backend.console := [] |}.

Definition with_outage (f : Call -> option Error) (b : Backend.t) : Backend.t :=
  {| Backend.objects := Backend.objects b;
     Backend.assignments := Backend.assignments b;
     Backend.shares := Backend.shares b;
     Backend.tracked := Backend.tracked b;
     Backend.clock := Backend.clock b;
     Backend.clock_iso := Backend.clock_iso b;
     Backend.outage := f;
     Backend.console := Backend.console b |}.

(** Every copy is refused. *)
Definition copy_down (c : Call) : option Error :=
  match c with StorageCopy _ _ => Some "copy refused" | _ => None end.

(** Every listing of a [private] folder is refused. *)
Definition private_down (c : Call) : option Error :=
  match c with
  | StorageList prefix _ =>
      if String.eqb (Js.tpl (Js.pop (Js.split "/" prefix))) "private"
      then Some "listing refused" else None
  | _ => None
  end.

(** Every listing is refused. *)
Definition list_down (c : Call) : option Error :=
  match c with StorageList _ _ => Some "listing refused" | _ => None end.

(** Every request to a store is refused. *)
Definition all_down (c : Call) : option Error :=
  if is_remote c then Some "service unavailable" else None.
End Demo.

(** ** The date label of [formatDate] *)

Section FormatDate.
(** A [Date] is its time value, in epoch milliseconds; invalid dates are
    left out.  [startOfLocalDay d] is
    [new Date(d.getFullYear(), d.getMonth(), d.getDate()).getTime()], the
    start of the local calendar day of [d]; it depends on the time zone of
    the runtime, as does [date.toLocaleDateString("en-US", ...)]. *)
Variable startOfLocalDay : Z -> Z.
Variable toLocaleDateString : Z -> string.

(** [formatDate], lines 1-24; [new Date()] reads the clock. *)
Definition formatDate (date : Z) : Prog string :=
  now <- call DateNow ;;
  let today := startOfLocalDay now in
  let uploadDate := startOfLocalDay date in
  let diffTime := today - uploadDate in
  let diffDays := diffTime / (1000 * 60 * 60 * 24) in
  if diffDays =? 0 then Ret "today"
  else if diffDays =? 1 then Ret "yesterday"
  else if (1 <? diffDays) && (diffDays <=? 7)
  then Ret (Js.of_number diffDays +:+ " days ago")
  else if (7 <? diffDays) && (diffDays <=? 30)
  then Ret (Js.of_number (diffDays / 7) +:+ " week"
              +:+ (if 1 <? diffDays / 7 then "s" else "") +:+ " ago")
  else Ret (toLocaleDateString date).
End FormatDate.

(** Calls that write to a table, and calls that remove from the bucket. *)
Definition is_table_call (c : Call) : bool :=
  match c with TableDelete _ _ _ | TableUpsert _ _ => true | _ => false end.

Definition is_removal (c : Call) : bool :=
  match c with StorageRemove _ => true | _ => false end.

(** What [if (err) console.warn(msg, err)] leaves on the console for a
    reply: the warning of a failed reply, nothing for a successful one. *)
Definition warning (msg : string) (reply : option Error) : list Call :=
  match reply with Some e => [ConsoleWarn msg e] | None => [] end.

(** The backend once that warning, if any, has been written. *)
Definition after_warning {World : Type}
    (respond : forall c : Call, World -> Resp c * World)
    (msg : string) (reply : option Error) (w : World) : World :=
  match reply with
  | Some e => (respond (ConsoleWarn msg e) w).2
  | None => w
  end.

(** A character of 7-bit ASCII: one byte and one UTF-16 unit alike. *)
Definition is_ascii (a : ascii) : bool := (N_of_ascii a <? 128)%N.

(** What a display name looks like once it went through the key: every
    character outside [[a-zA-Z0-9]] reads as a space. *)
Definition shown (name : string) : string :=
  Js.map_chars (fun a => if Js.is_alnum a then a else " "%char) name.

(** ** More fixtures: a calendar and a few more outages *)

Module Calendar.
(** The start of the day in a runtime whose time zone is UTC. *)
Definition startOfLocalDay (t : Z) : Z := t - t mod 86400000.

(** The [en-US] short dates of the days the fixture uses. *)
Definition toLocaleDateString (t : Z) : string :=
  if startOfLocalDay t =? 1711929600000 then "Apr 1, 2024"
  else if startOfLocalDay t =? 1709251200000 then "Mar 1, 2024"
  else if startOfLocalDay t =? 1708473600000 then "Feb 21, 2024"
  else if startOfLocalDay t =? 1712016000000 then "Apr 2, 2024"
  else "Invalid Date".

(** A runtime that springs forward at the end of 2024-03-31: that day is
    23 hours long. *)
Definition startOfShortDay (t : Z) : Z :=
  if t <? 1711843200000 then startOfLocalDay t
  else if t <? 1711926000000 then 1711843200000
  else 1711926000000 + (t - 1711926000000) / 86400000 * 86400000.
End Calendar.

Module Outages.
(** The fixture with one more object: the marker of an empty folder, whose
    key ends with a slash. *)
Definition with_marker : Backend.t :=
  Backend.with_objects
    (<["u1/drafts/" := Demo.obj 0 "2024-03-01T00:00:00.000Z"]> Demo.bucket)
    Demo.backend.

(** Every removal from the bucket is refused. *)
Definition remove_down (c : Call) : option Error :=
  match c with StorageRemove _ => Some "remove refused" | _ => None end.

(** Every upload is refused. *)
Definition upload_down (c : Call) : option Error :=
  match c with StorageUpload _ _ => Some "upload refused" | _ => None end.

(** Every request to a table is refused. *)
Definition tables_down (c : Call) : option Error :=
  match c with
  | TableDelete _ _ _ | TableUpsert _ _ => Some "table unavailable"
  | _ => None
  end.

(** Removals and table requests are both refused. *)
Definition remove_and_tables_down (c : Call) : option Error :=
  match remove_down c with Some e => Some e | None => tables_down c end.
End Outages.

(** ** Facts about the string primitives *)

Section StringFacts.
Implicit Types (s t : string) (a sep : ascii).

Lemma append_nil t : "" +:+ t = t.
Proof. reflexivity. Qed.

Lemma append_cons a s t : String a s +:+ t = String a (s +:+ t).
Proof. reflexivity. Qed.

Lemma append_assoc s t u : (s +:+ t) +:+ u = s +:+ t +:+ u.
Proof. induction s as [|a s IH]; [done|]. by rewrite !append_cons, IH. Qed.

Lemma split_not_nil sep s : Js.split sep s <> [].
Proof.
  destruct s as [|a s]; simpl; [done|].
  destruct (Ascii.eqb a sep); [done|]. by destruct (Js.split sep s).
Qed.

Lemma split_length sep s : (1 <= length (Js.split sep s))%nat.
Proof.
  pose proof (split_not_nil sep s).
  destruct (Js.split sep s); simpl; [done|lia].
Qed.

Lemma split_without sep s :
  Js.includes sep s = false -> Js.split sep s = [s].
Proof.
  induction s as [|a s IH]; simpl; [done|].
  intros [Ha Hs]%orb_false_elim. rewrite Ha, (IH Hs). done.
Qed.

Lemma split_app sep s t :
  Js.includes sep s = false ->
  Js.split sep (s +:+ String sep t) = s :: Js.split sep t.
Proof.
  induction s as [|a s IH]; intros Hs.
  - rewrite append_nil. simpl. by rewrite Ascii.eqb_refl.
  - simpl in Hs. apply orb_false_elim in Hs as [Ha Hs].
    rewrite append_cons. simpl. by rewrite Ha, (IH Hs).
Qed.

Lemma join_cons (glue : string) s l :
  l <> [] -> Js.join glue (s :: l) = s +:+ glue +:+ Js.join glue l.
Proof. by destruct l. Qed.

Lemma join_split sep s : Js.join (String sep "") (Js.split sep s) = s.
Proof.
  induction s as [|a s IH]; [done|]. simpl.
  destruct (Ascii.eqb_spec a sep) as [->|Hne].
  - rewrite join_cons by apply split_not_nil. by rewrite IH.
  - pose proof (split_not_nil sep s) as Hnil.
    destruct (Js.split sep s) as [|h l]; [done|].
    destruct l as [|h' l]; simpl in *; [by rewrite IH|].
    by rewrite <- IH.
Qed.

Lemma pop_split_without sep s :
  Js.includes sep s = false -> Js.pop (Js.split sep s) = Some s.
Proof. intros Hs. by rewrite split_without. Qed.

Lemma pop_cons_split sep s t :
  Js.pop (s :: Js.split sep t) = Js.pop (Js.split sep t).
Proof.
  pose proof (split_not_nil sep t). unfold Js.pop.
  by destruct (Js.split sep t).
Qed.

(** The part after the last separator is what [split(sep).pop()] yields. *)
Lemma pop_split_app sep s t :
  Js.includes sep t = false ->
  Js.pop (Js.split sep (s +:+ String sep t)) = Some t.
Proof.
  intros Ht. induction s as [|a s IH].
  - rewrite append_nil. simpl. rewrite Ascii.eqb_refl.
    by rewrite pop_cons_split, pop_split_without.
  - rewrite append_cons. simpl.
    destruct (Ascii.eqb a sep).
    + by rewrite pop_cons_split.
    + pose proof (split_not_nil sep (s +:+ String sep t)) as Hnil.
      destruct (Js.split sep (s +:+ String sep t)) as [|h [|h' l]] eqn:E;
        [done| |done].
      exfalso. clear IH Hnil.
      assert (Hlen : (2 <= length (Js.split sep (s +:+ String sep t)))%nat).
      { clear E. induction s as [|b s IH].
        - rewrite append_nil. simpl. rewrite Ascii.eqb_refl. simpl.
          pose proof (split_length sep t). lia.
        - rewrite append_cons. simpl. destruct (Ascii.eqb b sep).
          + simpl. lia.
          + destruct (Js.split sep (s +:+ String sep t)); simpl in *; lia. }
      rewrite E in Hlen. simpl in Hlen. lia.
Qed.

(** The segment produced by [pop] never contains the separator. *)
Lemma pop_split_segment sep s :
  exists seg, Js.pop (Js.split sep s) = Some seg
    /\ Js.includes sep seg = false
    /\ (s = seg \/ exists dir, s = dir +:+ String sep seg).
Proof.
  induction s as [|a s (seg & Hpop & Hseg & Hs)].
  - exists "". simpl. auto.
  - destruct (Ascii.eqb_spec a sep) as [->|Hne].
    + exists seg. simpl. rewrite Ascii.eqb_refl, pop_cons_split.
      split; [done|]. split; [done|]. right.
      destruct Hs as [->|[dir ->]].
      * by exists "".
      * by exists (String sep dir).
    + apply Ascii.eqb_neq in Hne.
      destruct Hs as [->|[dir ->]].
      * exists (String a seg). split.
        { apply pop_split_without. simpl. by rewrite Hne. }
        split; [simpl; by rewrite Hne|]. by left.
      * exists seg. split.
        { change (String a (dir +:+ String sep seg))
            with (String a dir +:+ String sep seg).
          by apply pop_split_app. }
        split; [done|]. right. by exists (String a dir).
Qed.

Lemma all_chars_app p s t :
  Js.all_chars p (s +:+ t) = Js.all_chars p s && Js.all_chars p t.
Proof.
  induction s as [|a s IH]; [done|].
  rewrite append_cons. simpl. by rewrite IH, andb_assoc.
Qed.

Lemma includes_app a s t :
  Js.includes a (s +:+ t) = Js.includes a s || Js.includes a t.
Proof.
  induction s as [|b s IH]; [done|].
  rewrite append_cons. simpl. by rewrite IH, orb_assoc.
Qed.

Lemma map_chars_app f s t :
  Js.map_chars f (s +:+ t) = Js.map_chars f s +:+ Js.map_chars f t.
Proof.
  induction s as [|a s IH]; [done|].
  rewrite !append_cons. simpl. by rewrite IH.
Qed.

(** A string over one class avoids every character outside that class. *)
Lemma all_chars_excludes p a s :
  p a = false -> Js.all_chars p s = true -> Js.includes a s = false.
Proof.
  intros Hp. induction s as [|b s IH]; simpl; [done|].
  intros [Hb Hs]%andb_prop. rewrite (IH Hs), orb_false_r.
  destruct (Ascii.eqb_spec b a) as [->|]; [congruence|done].
Qed.

Lemma replace_non_alnum_word s :
  Js.all_chars Js.is_word (Js.replace_non_alnum s) = true.
Proof.
  unfold Js.replace_non_alnum.
  induction s as [|a s IH]; simpl; [done|].
  rewrite IH, andb_true_r. unfold Js.is_word.
  by destruct (Js.is_alnum a) eqn:E; [rewrite E|].
Qed.

Lemma sanitize_char_back a :
  Js.is_alnum_or_space a = true ->
  (if Ascii.eqb (if Js.is_alnum a then a else "_"%char) "_"
   then " "%char else if Js.is_alnum a then a else "_"%char) = a.
Proof. destruct a as [[] [] [] [] [] [] [] []]; by vm_compute. Qed.

(** Replacing the underscores of a sanitized name gives the name back when
    it is made of letters, digits and spaces. *)
Lemma replace_underscores_sanitized s :
  Js.all_chars Js.is_alnum_or_space s = true ->
  Js.replace_underscores (Js.replace_non_alnum s) = s.
Proof.
  unfold Js.replace_underscores, Js.replace_non_alnum.
  induction s as [|a s IH]; cbn [Js.map_chars Js.all_chars]; [done|].
  intros [Ha Hs]%andb_prop.
  by rewrite (IH Hs), (sanitize_char_back a Ha).
Qed.

Lemma replace_underscores_without s :
  Js.includes "_" s = false -> Js.replace_underscores s = s.
Proof.
  unfold Js.replace_underscores.
  induction s as [|a s IH]; simpl; [done|].
  intros [Ha Hs]%orb_false_elim. by rewrite Ha, (IH Hs).
Qed.

Lemma word_then_dot s t :
  Js.all_chars Js.is_word (s +:+ String "." t) = false.
Proof.
  rewrite all_chars_app. simpl.
  by rewrite (andb_false_r (Js.all_chars Js.is_word s)).
Qed.

(** [/\.\w+$/] finds the extension after the last dot and nothing before. *)
Lemma strip_ext_app s ext :
  Js.truthy ext = true -> Js.all_chars Js.is_word ext = true ->
  Js.strip_ext (s +:+ String "." ext) = s.
Proof.
  intros Hne Hword. induction s as [|a s IH].
  - rewrite append_nil. simpl. by rewrite Hne, Hword.
  - rewrite append_cons. simpl.
    by rewrite word_then_dot, andb_false_r, IH.
Qed.

Lemma string_of_uint_numeral d :
  Js.all_chars Js.is_numeral (NilEmpty.string_of_uint d) = true.
Proof. induction d; simpl; by rewrite ?IHd. Qed.

Lemma of_number_numeral n : Js.all_chars Js.is_numeral (Js.of_number n) = true.
Proof.
  unfold Js.of_number, NilZero.string_of_int, NilZero.string_of_uint.
  destruct (Z.to_int n) as [d|d]; destruct d;
    try reflexivity; apply string_of_uint_numeral.
Qed.

Lemma of_number_truthy n : Js.truthy (Js.of_number n) = true.
Proof.
  unfold Js.of_number, NilZero.string_of_int, NilZero.string_of_uint.
  by destruct (Z.to_int n) as [d|d]; destruct d.
Qed.

Lemma of_number_no_underscore n : Js.includes "_" (Js.of_number n) = false.
Proof.
  apply (all_chars_excludes Js.is_numeral); [done|apply of_number_numeral].
Qed.

Lemma of_number_no_slash n : Js.includes "/" (Js.of_number n) = false.
Proof.
  apply (all_chars_excludes Js.is_numeral); [done|apply of_number_numeral].
Qed.

Lemma startsWith_app s t u :
  Js.startsWith (s +:+ t) (s +:+ u) = Js.startsWith t u.
Proof.
  induction s as [|a s IH]; [done|]. rewrite !append_cons. simpl.
  by rewrite Ascii.eqb_refl.
Qed.

Lemma is_numeral_not_p a : Js.is_numeral a = true -> Ascii.eqb "p" a = false.
Proof. destruct a as [[] [] [] [] [] [] [] []]; by vm_compute. Qed.
End StringFacts.

(** ** The filename codec: decoding what was encoded *)

Section Codec.
Implicit Types (s c rest name ext : string).

Lemma sep_app a t : String a "" +:+ t = String a t.
Proof. reflexivity. Qed.

(** Two leading segments without underscores are the timestamp and the
    category; the rest, whatever it holds, is the name with its extension. *)
Lemma parseFilename_three s c rest :
  Js.includes "_" s = false -> Js.includes "_" c = false ->
  parseFilename (s +:+ "_" +:+ c +:+ "_" +:+ rest)
  = {| category := c;
       displayName := Js.replace_underscores (Js.strip_ext rest) |}.
Proof.
  intros Hs Hc. unfold parseFilename.
  rewrite !sep_app, (split_app _ _ _ Hs), (split_app _ _ _ Hc).
  pose proof (split_length "_" rest).
  destruct (decide _) as [_|Hlen]; [|simpl in Hlen; lia].
  unfold Js.slice. simpl. by rewrite drop_0, join_split.
Qed.

Lemma encodeKey_parse now c name ext :
  Js.includes "_" c = false ->
  Js.truthy ext = true -> Js.all_chars Js.is_word ext = true ->
  parseFilename (encodeKey now c name (Some ext))
  = {| category := c; displayName := Js.replace_underscores name |}.
Proof.
  intros Hc Hne Hext. unfold encodeKey.
  rewrite (parseFilename_three _ _ _ (of_number_no_underscore now) Hc).
  simpl Js.tpl. by rewrite sep_app, strip_ext_app.
Qed.

Lemma encodeKey_no_slash now c name ext :
  Js.includes "/" c = false -> Js.includes "/" name = false ->
  Js.includes "/" ext = false ->
  Js.includes "/" (encodeKey now c name (Some ext)) = false.
Proof.
  intros Hc Hn He. unfold encodeKey. simpl Js.tpl.
  rewrite !includes_app, of_number_no_slash, Hc, Hn, He. done.
Qed.

(** A restored key carries one more timestamp in front: the decoder then
    reads the old timestamp as the category. *)
Lemma parse_restored (t2 t1 : Z) c name ext :
  Js.includes "_" c = false ->
  Js.truthy ext = true -> Js.all_chars Js.is_word ext = true ->
  parseFilename (Js.of_number t2 +:+ "_" +:+ encodeKey t1 c name (Some ext))
  = {| category := Js.of_number t1;
       displayName := c +:+ " " +:+ Js.replace_underscores name |}.
Proof.
  intros Hc Hne Hext. unfold encodeKey. simpl Js.tpl.
  rewrite (parseFilename_three _ _ _ (of_number_no_underscore t2)
             (of_number_no_underscore t1)).
  f_equal.
  replace (c +:+ "_" +:+ name +:+ "." +:+ ext)
    with ((c +:+ "_" +:+ name) +:+ String "." ext)
    by (by rewrite !append_assoc).
  rewrite strip_ext_app by done.
  unfold Js.replace_underscores at 1. rewrite map_chars_app.
  fold (Js.replace_underscores c). by rewrite replace_underscores_without.
Qed.
End Codec.

(** C5.  A filename with fewer than three underscore-separated segments is
    decoded as category ["other"], and its display name is the filename
    itself, unchanged: the extension stays and no underscore becomes a
    space. *)
Theorem parseFilename_few_segments (filename : string) :
  (length (Js.split "_" filename) < 3)%nat ->
  parseFilename filename = {| category := "other"; displayName := filename |}.
Proof.
  intros Hlen. unfold parseFilename.
  destruct (decide _) as [Hge|_]; [lia|done].
Qed.

Lemma parseFilename_few_segments_witness :
  (length (Js.split "_" "randomfile.pdf") < 3)%nat
  /\ parseFilename "randomfile.pdf"
     = {| category := "other"; displayName := "randomfile.pdf" |}
  /\ parseFilename "my_file.pdf"
     = {| category := "other"; displayName := "my_file.pdf" |}.
Proof.
  split; [vm_compute; lia|]. split.
  - apply (parseFilename_few_segments "randomfile.pdf"). vm_compute. lia.
  - apply (parseFilename_few_segments "my_file.pdf"). vm_compute. lia.
Defined.

(** ** Running the helpers against an arbitrary backend *)

#[local] Arguments Js.of_number : simpl never.
#[local] Arguments Js.split : simpl never.
#[local] Arguments Js.pop : simpl never.
#[local] Arguments Js.tpl : simpl never.
#[local] Arguments Js.or_else : simpl never.
#[local] Arguments encodeKey : simpl never.
#[local] Arguments parseFilename : simpl never.
#[local] Arguments cleanupDocumentReferences : simpl never.

Section Runs.
Context {World : Type} (respond : forall c : Call, World -> Resp c * World).
Variable getPublicUrl : string -> string.
Variable getTime : string -> option Z.

Abbreviation exec := (run respond).

(** Sequencing: the second part starts where the first one stopped. *)
Lemma run_bind {A B} (p : Prog A) (f : A -> Prog B) (w : World) :
  exec (bind p f) w
  = match exec p w with
    | (Returned a, w1, calls1) =>
        let '(o, w2, calls2) := exec (f a) w1 in (o, w2, calls1 ++ calls2)
    | (Raised e, w1, calls1) => (Raised e, w1, calls1)
    end.
Proof.
  revert w. induction p as [a|e|c k IH]; intros w; simpl.
  - by destruct (exec (f a) w) as [[o w2] calls2].
  - done.
  - destruct (respond c w) as [r w1]. rewrite IH.
    destruct (exec (k r) w1) as [[[a|e] w2] calls1]; [|done].
    by destruct (exec (f a) w2) as [[o w3] calls2].
Qed.

Lemma run_call (c : Call) (w : World) :
  exec (call c) w = let '(r, w1) := respond c w in (Returned r, w1, [c]).
Proof. simpl. by destruct (respond c w). Qed.

(** [cleanupDocumentReferences] never raises, asks for its three deletions
    in order, and otherwise only writes warnings. *)
Lemma cleanup_never_raises (userId documentPath : string) (w : World) :
  exists w' calls,
    exec (cleanupDocumentReferences userId documentPath) w
    = (Returned tt, w', calls)
    /\ List.filter is_remote calls
       = [TableDelete smart_folder_assignments userId documentPath;
          TableDelete document_shares userId documentPath;
          TableDelete deleted_documents userId documentPath]
    /\ Forall (fun c => is_remote c = false ->
                        exists msg err, c = ConsoleWarn msg err) calls.
Proof.
  unfold cleanupDocumentReferences. simpl.
  destruct (respond (TableDelete smart_folder_assignments _ _) w)
    as [[e1|] w1]; simpl;
    [destruct (respond (ConsoleWarn _ e1) w1) as [[] w1']; simpl|];
    (destruct (respond (TableDelete document_shares _ _) _)
       as [[e2|] w2]; simpl;
     [destruct (respond (ConsoleWarn _ e2) w2) as [[] w2']; simpl|]);
    (destruct (respond (TableDelete deleted_documents _ _) _)
       as [[e3|] w3]; simpl;
     [destruct (respond (ConsoleWarn _ e3) w3) as [[] w3']; simpl|]);
    eexists _, _; (split; [reflexivity|]); (split; [reflexivity|]);
    repeat constructor; intros; try discriminate; eauto.
Qed.

(** The exact run of [cleanupDocumentReferences]: the three deletions in
    order, each followed by its warning when, and only when, it failed. *)
Lemma cleanup_run (userId documentPath : string) (w : World) :
  let m1 := "Failed to clean up folder assignments:" in
  let m2 := "Failed to clean up document shares:" in
  let m3 := "Failed to clean up deleted documents tracking:" in
  let '(r1, w1) :=
    respond (TableDelete smart_folder_assignments userId documentPath) w in
  let '(r2, w2) :=
    respond (TableDelete document_shares userId documentPath)
      (after_warning respond m1 r1 w1) in
  let '(r3, w3) :=
    respond (TableDelete deleted_documents userId documentPath)
      (after_warning respond m2 r2 w2) in
  exec (cleanupDocumentReferences userId documentPath) w
  = (Returned tt, after_warning respond m3 r3 w3,
     TableDelete smart_folder_assignments userId documentPath :: warning m1 r1
     ++ TableDelete document_shares userId documentPath :: warning m2 r2
     ++ TableDelete deleted_documents userId documentPath :: warning m3 r3).
Proof.
  unfold cleanupDocumentReferences. cbn.
  destruct (respond (TableDelete smart_folder_assignments _ _) w)
    as [[e1|] w1]; cbn;
    [destruct (respond (ConsoleWarn _ e1) w1) as [[] w1']; cbn|];
    (destruct (respond (TableDelete document_shares _ _) _)
       as [[e2|] w2]; cbn;
     [destruct (respond (ConsoleWarn _ e2) w2) as [[] w2']; cbn|]);
    (destruct (respond (TableDelete deleted_documents _ _) _)
       as [[e3|] w3]; cbn;
     [destruct (respond (ConsoleWarn _ e3) w3) as [[] w3']; cbn|]);
    reflexivity.
Qed.

(** C7.  [deletePermanent] never raises, whatever the stores answer.  Its
    first request is the removal of [path], issued without looking the
    object up and with its reply ignored; the three clean-up deletions
    follow, keyed on the leading segment of [path] as the user.  Each
    deletion that fails is followed by its warning on the console, carrying
    the error, and by nothing else; a deletion that succeeds leaves no
    trace. *)
Theorem deletePermanent_never_raises (path : string) (w : World) :
  exists userId rest,
    Js.split "/" path = userId :: rest
    /\ let m1 := "Failed to clean up folder assignments:" in
       let m2 := "Failed to clean up document shares:" in
       let m3 := "Failed to clean up deleted documents tracking:" in
       let '(_, w0) := respond (StorageRemove [path]) w in
       let '(r1, w1) :=
         respond (TableDelete smart_folder_assignments userId path) w0 in
       let '(r2, w2) :=
         respond (TableDelete document_shares userId path)
           (after_warning respond m1 r1 w1) in
       let '(r3, w3) :=
         respond (TableDelete deleted_documents userId path)
           (after_warning respond m2 r2 w2) in
       exec (deletePermanent path) w
       = (Returned tt, after_warning respond m3 r3 w3,
          StorageRemove [path]
          :: TableDelete smart_folder_assignments userId path :: warning m1 r1
          ++ TableDelete document_shares userId path :: warning m2 r2
          ++ TableDelete deleted_documents userId path :: warning m3 r3).
Proof.
  pose proof (split_not_nil "/" path) as Hnil.
  destruct (Js.split "/" path) as [|userId rest] eqn:Hsplit; [done|].
  exists userId, rest. split; [done|].
  unfold deletePermanent. rewrite Hsplit.
  change (Js.tpl ((userId :: rest) !! 0%nat)) with userId.
  rewrite run_bind, run_call. cbv zeta.
  destruct (respond (StorageRemove [path]) w) as [r0 w0].
  pose proof (cleanup_run userId path w0) as Hrun. cbv zeta in Hrun.
  destruct (respond (TableDelete smart_folder_assignments userId path) w0)
    as [r1 w1].
  destruct (respond (TableDelete document_shares userId path) _) as [r2 w2].
  destruct (respond (TableDelete deleted_documents userId path) _) as [r3 w3].
  by rewrite Hrun.
Qed.

(** C6.  When the copy that opens [moveToTrash] or [restoreFromTrash] fails,
    the helper raises that very error and stops: the failed copy is the last
    call it makes, so there is no removal, no reference clean-up and no write
    to or delete from the tracking table, and the stores stay as the failed
    copy left them. *)
Theorem copy_failure_aborts (userId path filename : string) (now : Z)
    (e e' : Error) (w w1 v v0 v1 : World) :
  let trashed := userId +:+ "/trash/" +:+ Js.tpl (Js.pop (Js.split "/" path)) in
  let src := userId +:+ "/trash/" +:+ filename in
  let dest := userId +:+ "/" +:+ Js.of_number now +:+ "_" +:+ filename in
  respond (StorageCopy path trashed) w = (Some e, w1) ->
  respond DateNow v = (now, v0) ->
  respond (StorageCopy src dest) v0 = (Some e', v1) ->
  exec (moveToTrash userId path) w = (Raised e, w1, [StorageCopy path trashed])
  /\ exec (restoreFromTrash getPublicUrl userId filename) v
     = (Raised e', v1, [DateNow; StorageCopy src dest]).
Proof.
  intros trashed src dest Hcopy Hnow Hcopy'. split.
  - unfold moveToTrash. cbn. fold trashed. by rewrite Hcopy.
  - unfold restoreFromTrash. cbn. rewrite Hnow. fold src dest.
    by rewrite Hcopy'.
Qed.

(** C8.  A failed listing of the regular prefix makes [listUserDocuments]
    raise that error, before the private prefix is even asked for.  When
    only the listing of the private prefix fails, nothing is raised: the
    failure is written to the console and the result is exactly the
    documents of the regular listing. *)
Theorem listUserDocuments_listing_failures (userId : string) (e e' : Error)
    (data : list FileObject.t) (w w1 v v1 v2 : World) :
  respond (StorageList userId 100) w = (ListErr e, w1) ->
  respond (StorageList userId 100) v = (ListOk data, v1) ->
  respond (StorageList (userId +:+ "/private") 100) v1 = (ListErr e', v2) ->
  let failed := exec (listUserDocuments getPublicUrl userId) w in
  let partial := exec (listUserDocuments getPublicUrl userId) v in
  failed.1.1 = Raised e
  /\ failed.2
     = [StorageList userId 100;
        ConsoleError "Error listing regular documents:" e;
        ConsoleError "Error in listUserDocuments:" e]
  /\ partial.1.1
     = Returned (map (regularDoc getPublicUrl userId) (List.filter isFile data))
  /\ partial.2
     = [StorageList userId 100;
        StorageList (userId +:+ "/private") 100;
        ConsoleError "Error listing private documents:" e'].
Proof.
  intros Hfail Hok Hprivate. unfold listUserDocuments. cbn.
  rewrite Hfail, Hok. cbn. rewrite Hprivate. cbn.
  destruct (respond (ConsoleError _ e) w1) as [[] w2].
  destruct (respond (ConsoleError _ e) w2) as [[] w3].
  destruct (respond (ConsoleError _ e') v2) as [[] v3]. cbn.
  by rewrite app_nil_r.
Qed.

Lemma listUserDocuments_returns (userId : string) (regular : list FileObject.t)
    (reply : Listing) (w w1 w2 : World) :
  respond (StorageList userId 100) w = (ListOk regular, w1) ->
  respond (StorageList (userId +:+ "/private") 100) w1 = (reply, w2) ->
  (exec (listUserDocuments getPublicUrl userId) w).1.1
  = Returned
      (map (regularDoc getPublicUrl userId) (List.filter isFile regular)
       ++ map (privateDoc getPublicUrl userId)
            (List.filter isFile (entries reply))).
Proof.
  intros Hregular Hprivate. unfold listUserDocuments. cbn.
  rewrite Hregular. cbn. rewrite Hprivate.
  destruct reply as [data|e]; cbn; [done|].
  by destruct (respond (ConsoleError _ e) w2) as [[] w3].
Qed.

Lemma isFile_spec (obj : FileObject.t) :
  isFile obj = true ->
  Js.includes "." (FileObject.name obj) = true
  /\ (0 < FileObject.size_or_0 obj)%N.
Proof.
  unfold isFile. intros [[_ Hdot]%andb_prop Hsize%N.ltb_lt]%andb_prop. done.
Qed.

Lemma isFile_complete (obj : FileObject.t) :
  Js.includes "." (FileObject.name obj) = true ->
  (0 < FileObject.size_or_0 obj)%N ->
  isFile obj = true.
Proof.
  unfold isFile. intros Hdot Hsize%N.ltb_lt. rewrite Hdot, Hsize.
  by destruct (FileObject.name obj).
Qed.

(** C4, as amended.  Once the regular listing succeeds, [listUserDocuments]
    returns the documents of the regular prefix followed by those of the
    private prefix.  A document is returned exactly when it was made from a
    listed entry whose name contains a dot and whose size is greater than 0:
    entries of size 0 or without a dot yield nothing.  Every returned
    document reports a size greater than 0, and every document made from an
    entry of the private prefix has category ["private"], whatever its
    filename encodes.  The dot is in the entry's name: the [name] of the
    returned document is the decoded display name. *)
Theorem listUserDocuments_files_only (userId : string)
    (regular : list FileObject.t) (reply : Listing) (w w1 w2 : World) :
  respond (StorageList userId 100) w = (ListOk regular, w1) ->
  respond (StorageList (userId +:+ "/private") 100) w1 = (reply, w2) ->
  exists regularDocs privateDocs,
    (exec (listUserDocuments getPublicUrl userId) w).1.1
    = Returned (regularDocs ++ privateDocs)
    /\ (forall d, In d regularDocs <->
          exists obj,
            In obj regular
            /\ Js.includes "." (FileObject.name obj) = true
            /\ (0 < FileObject.size_or_0 obj)%N
            /\ d = regularDoc getPublicUrl userId obj)
    /\ (forall d, In d privateDocs <->
          exists obj,
            In obj (entries reply)
            /\ Js.includes "." (FileObject.name obj) = true
            /\ (0 < FileObject.size_or_0 obj)%N
            /\ d = privateDoc getPublicUrl userId obj)
    /\ (forall d, In d (regularDocs ++ privateDocs) ->
          (0 < DocumentRecord.size d)%N)
    /\ (forall d, In d privateDocs -> DocumentRecord.category d = "private").
Proof.
  intros Hregular Hprivate.
  exists (map (regularDoc getPublicUrl userId) (List.filter isFile regular)),
    (map (privateDoc getPublicUrl userId)
       (List.filter isFile (entries reply))).
  split; [by apply (listUserDocuments_returns _ _ _ _ _ _ Hregular Hprivate)|].
  assert (Hmade : forall (make : FileObject.t -> DocumentRecord.t) l d,
             In d (map make (List.filter isFile l)) <->
             exists obj,
               In obj l
               /\ Js.includes "." (FileObject.name obj) = true
               /\ (0 < FileObject.size_or_0 obj)%N
               /\ d = make obj).
  { intros make l d. split.
    - intros (obj & <- & [Hin Hfile]%filter_In)%in_map_iff.
      apply isFile_spec in Hfile as [Hdot Hsize]. by exists obj.
    - intros (obj & Hin & Hdot & Hsize & ->). apply in_map, filter_In.
      split; [done|]. by apply isFile_complete. }
  split; [apply Hmade|]. split; [apply Hmade|]. split.
  - intros d [Hd|Hd]%in_app_iff;
      by apply Hmade in Hd as (obj & _ & _ & Hsize & ->).
  - by intros d (obj & _ & _ & _ & ->)%Hmade.
Qed.

(** C3.  With the clock at [now] and a successful trash listing,
    [purgeOldTrash] returns after asking for at most one removal: one batch
    holding exactly the trash paths of the entries whose size is not zero
    and whose deletion time lies strictly before [now - days * 86400000];
    when no entry qualifies, nothing is removed.  So an entry of size zero is
    never removed, however old, nor is an entry at or after the cutoff. *)
Theorem purgeOldTrash_removes_due (userId : string) (days now : Z)
    (data : list FileObject.t) (w w1 w2 : World) :
  respond DateNow w = (now, w1) ->
  respond (StorageList (userId +:+ "/trash") 100) w1 = (ListOk data, w2) ->
  exists toDelete,
    (forall p, In p toDelete <->
       exists obj ms,
         In obj data
         /\ p = userId +:+ "/trash/" +:+ FileObject.name obj
         /\ FileObject.size_or_0 obj <> 0%N
         /\ getTime (FileObject.created_at obj) = Some ms
         /\ ms < now - days * 86400000)
    /\ (exec (purgeOldTrash getPublicUrl getTime userId days) w).1.1
       = Returned tt
    /\ (exec (purgeOldTrash getPublicUrl getTime userId days) w).2
       = [DateNow; StorageList (userId +:+ "/trash") 100]
         ++ match toDelete with
            | [] => []
            | _ :: _ => [StorageRemove toDelete]
            end.
Proof.
  intros Hnow Hlist.
  set (threshold := now - days * 24 * 60 * 60 * 1000).
  exists (map TrashRecord.path
            (List.filter (purgeable getTime threshold)
               (map (trashRecord getPublicUrl userId) data))).
  split.
  - intros p. rewrite in_map_iff. split.
    + intros (t & <- & [(obj & <- & Hin)%in_map_iff Hdue]%filter_In).
      unfold purgeable in Hdue. cbn in Hdue.
      apply andb_prop in Hdue as [Hsize%N.ltb_lt Htime].
      destruct (getTime (FileObject.created_at obj)) as [ms|] eqn:Hms; [|done].
      apply Z.ltb_lt in Htime. exists obj, ms.
      split_and!; [done|done|lia|done|subst threshold; lia].
    + intros (obj & ms & Hin & -> & Hsize & Hms & Hlt).
      exists (trashRecord getPublicUrl userId obj). split; [done|].
      apply filter_In. split; [by apply in_map|].
      unfold purgeable. cbn. rewrite Hms.
      apply andb_true_intro. split; [apply N.ltb_lt; lia|].
      apply Z.ltb_lt. subst threshold. lia.
  - unfold purgeOldTrash, listUserTrash. cbn. rewrite Hnow. cbn.
    rewrite Hlist. cbn. fold threshold.
    destruct (map TrashRecord.path _) as [|p l]; cbn; [done|].
    by destruct (respond (StorageRemove (p :: l)) w2) as [r w3].
Qed.

Lemma of_number_head (n : Z) :
  exists a r, Js.of_number n = String a r /\ Js.is_numeral a = true.
Proof.
  pose proof (of_number_truthy n) as Hne.
  pose proof (of_number_numeral n) as Hnum.
  destruct (Js.of_number n) as [|a r]; [done|].
  exists a, r. split; [done|]. simpl in Hnum. by apply andb_prop in Hnum as [? _].
Qed.

(** The trash copy is named after what [split("/").pop()] yields. *)
Lemma moveToTrash_first_call (userId path filename : string) (w : World) :
  Js.pop (Js.split "/" path) = Some filename ->
  head (exec (moveToTrash userId path) w).2
  = Some (StorageCopy path (userId +:+ "/trash/" +:+ filename)).
Proof.
  intros Hpop. unfold moveToTrash. rewrite Hpop.
  change (Js.tpl (Some filename)) with filename. cbn.
  destruct (respond (StorageCopy _ _) w) as [r w1].
  by destruct (exec _ w1) as [[o w2] calls].
Qed.

(** What [restoreFromTrash] does once the clock has answered. *)
Lemma restoreFromTrash_run (userId filename : string) (now : Z) (v v0 : World) :
  respond DateNow v = (now, v0) ->
  let src := userId +:+ "/trash/" +:+ filename in
  let dest := userId +:+ "/" +:+ Js.of_number now +:+ "_" +:+ filename in
  let restored := exec (restoreFromTrash getPublicUrl userId filename) v in
  take 2 restored.2 = [DateNow; StorageCopy src dest]
  /\ restored.1.1
     = match (respond (StorageCopy src dest) v0).1 with
       | Some e => Raised e
       | None =>
           Returned {| Stored.publicUrl := getPublicUrl dest;
                       Stored.path := dest |}
       end.
Proof.
  intros Hnow src dest. unfold restoreFromTrash. cbn. rewrite Hnow.
  fold src dest. destruct (respond (StorageCopy src dest) v0) as [[e|] v1];
    cbn; [done|].
  destruct (respond (StorageRemove [src]) v1) as [r v2].
  destruct (respond (TableDelete deleted_documents userId src) v2)
    as [[e|] v3]; cbn; [|done].
  by destruct (respond (ConsoleWarn _ e) v3) as [[] v4].
Qed.

(** C9.  [moveToTrash] names the trash copy after the final slash-segment of
    [path] alone, whatever folders precede it, and [restoreFromTrash] always
    copies to [<userId>/<timestamp>_<filename>], directly under the user.
    So the restored key never lies under [<userId>/private/]: a document
    trashed from the private prefix comes back under the public one. *)
Theorem restore_lands_in_public_prefix (userId path : string) (now : Z)
    (w v v0 : World) :
  respond DateNow v = (now, v0) ->
  exists filename,
    Js.pop (Js.split "/" path) = Some filename
    /\ Js.includes "/" filename = false
    /\ (path = filename \/ exists dir, path = dir +:+ "/" +:+ filename)
    /\ head (exec (moveToTrash userId path) w).2
       = Some (StorageCopy path (userId +:+ "/trash/" +:+ filename))
    /\ let src := userId +:+ "/trash/" +:+ filename in
       let dest := userId +:+ "/" +:+ Js.of_number now +:+ "_" +:+ filename in
       let restored := exec (restoreFromTrash getPublicUrl userId filename) v in
       take 2 restored.2 = [DateNow; StorageCopy src dest]
       /\ restored.1.1
          = match (respond (StorageCopy src dest) v0).1 with
            | Some e => Raised e
            | None =>
                Returned {| Stored.publicUrl := getPublicUrl dest;
                            Stored.path := dest |}
            end
       /\ Js.startsWith (userId +:+ "/private/") dest = false.
Proof.
  intros Hnow.
  destruct (pop_split_segment "/" path) as (filename & Hpop & Hseg & Hpath).
  exists filename.
  split_and!; [done|done|done|by apply moveToTrash_first_call|].
  intros src dest restored.
  destruct (restoreFromTrash_run userId filename now v v0 Hnow) as [Hcalls Hout].
  split_and!; [done|done|]. unfold dest.
  rewrite startsWith_app.
  destruct (of_number_head now) as (a & r & -> & Ha).
  rewrite sep_app, append_cons. cbn [Js.startsWith].
  rewrite (is_numeral_not_p a Ha). apply andb_false_r.
Qed.

(** A restored filename starts with two timestamps: the decoder reads the
    first as the timestamp and the second as the category, whatever follows;
    when the extension matches [\w+], the old category and the name, their
    underscores shown as spaces, make the display name. *)
Lemma parse_restored_any (t2 t1 : Z) (cat name : string)
    (fileExt : option string) :
  let restored := Js.of_number t2 +:+ "_" +:+ encodeKey t1 cat name fileExt in
  category (parseFilename restored) = Js.of_number t1
  /\ forall ext,
       fileExt = Some ext ->
       Js.truthy ext = true -> Js.all_chars Js.is_word ext = true ->
       displayName (parseFilename restored)
       = Js.replace_underscores cat +:+ " " +:+ Js.replace_underscores name.
Proof.
  intros restored. unfold restored, encodeKey.
  rewrite (parseFilename_three _ _ _ (of_number_no_underscore t2)
             (of_number_no_underscore t1)).
  split; [done|]. intros ext -> Hne Hext. cbn [displayName].
  change (Js.tpl (Some ext)) with ext.
  replace (cat +:+ "_" +:+ name +:+ "." +:+ ext)
    with ((cat +:+ "_" +:+ name) +:+ String "." ext)
    by (by rewrite !append_assoc).
  rewrite strip_ext_app by done.
  unfold Js.replace_underscores. by rewrite map_chars_app.
Qed.

(** C10, as amended.  A document whose filename, the final segment of its
    path, is [<t1>_<cat>_<name>.<ext>] is copied to the trash under that
    filename, and [restoreFromTrash] copies it back to
    [<userId>/<t2>_<t1>_<cat>_<name>.<ext>], the path it returns when the
    copy succeeds.  Decoding the restored filename gives the old timestamp
    [t1] as the category, in the place of [cat]; when the extension matches
    [\w+], the display name is [<cat> <name>] with the underscores of both
    shown as spaces. *)
Theorem restore_shifts_category (userId path cat name ext : string) (t1 t2 : Z)
    (w v v0 : World) :
  let filename := encodeKey t1 cat name (Some ext) in
  let restored := Js.of_number t2 +:+ "_" +:+ filename in
  let src := userId +:+ "/trash/" +:+ filename in
  let dest := userId +:+ "/" +:+ restored in
  Js.pop (Js.split "/" path) = Some filename ->
  respond DateNow v = (t2, v0) ->
  head (exec (moveToTrash userId path) w).2 = Some (StorageCopy path src)
  /\ take 2 (exec (restoreFromTrash getPublicUrl userId filename) v).2
     = [DateNow; StorageCopy src dest]
  /\ (exec (restoreFromTrash getPublicUrl userId filename) v).1.1
     = match (respond (StorageCopy src dest) v0).1 with
       | Some e => Raised e
       | None =>
           Returned {| Stored.publicUrl := getPublicUrl dest;
                       Stored.path := dest |}
       end
  /\ restored
     = Js.of_number t2 +:+ "_" +:+ Js.of_number t1 +:+ "_" +:+ cat +:+ "_"
         +:+ name +:+ "." +:+ ext
  /\ category (parseFilename restored) = Js.of_number t1
  /\ (Js.truthy ext = true -> Js.all_chars Js.is_word ext = true ->
      displayName (parseFilename restored)
      = Js.replace_underscores cat +:+ " " +:+ Js.replace_underscores name).
Proof.
  intros filename restored src dest Hpop Hnow.
  destruct (restoreFromTrash_run userId filename t2 v v0 Hnow) as [Hcalls Hout].
  destruct (parse_restored_any t2 t1 cat name (Some ext)) as [Hcat Hshown].
  split_and!; [by apply moveToTrash_first_call|done|done|done|done|].
  intros Hne Hext. by apply (Hshown ext).
Qed.

(** The row [moveToTrash] writes to the tracking table once the copy and the
    removal went through: its [document_path] is the path the document had
    before it was moved. *)
Lemma moveToTrash_upsert_row (userId path : string) (w w1 w2 : World) :
  let filename := Js.pop (Js.split "/" path) in
  respond (StorageCopy path (userId +:+ "/trash/" +:+ Js.tpl filename)) w
  = (None, w1) ->
  respond (StorageRemove [path]) w1 = (None, w2) ->
  (exec (moveToTrash userId path) w).1.1 = Returned tt
  /\ last (List.filter is_remote (exec (moveToTrash userId path) w).2)
     = Some (TableUpsert deleted_documents
               {| user_id := userId;
                  document_path := path;
                  document_name := Js.or_else filename "unknown" |}).
Proof.
  intros filename Hcopy Hdel. unfold moveToTrash. fold filename. cbn.
  rewrite Hcopy. cbn. rewrite Hdel. cbn. rewrite run_bind.
  destruct (cleanup_never_raises userId path w2)
    as (w3 & calls & -> & Hremote & _). cbn.
  destruct (respond (TableUpsert _ _) w3) as [[e|] w4]; cbn.
  - destruct (respond (ConsoleWarn _ e) w4) as [[] w5]. cbn. split; [done|].
    rewrite List.filter_app, Hremote. done.
  - split; [done|]. rewrite List.filter_app, Hremote. done.
Qed.

(** C2, as amended.  For a category made of letters and digits only and a
    name made of letters, digits and spaces, [uploadDocument] stores a
    [.pdf] file under the key [<t>_<c>_<sanitized name>.pdf], and decoding
    that key gives back the category and the name. *)
Theorem codec_roundtrip (userId n c : string) (file : File.t)
    (isPrivate : bool) (now : Z) (w w1 w2 : World) :
  let key := encodeKey now c (Js.replace_non_alnum n) (Some "pdf") in
  let filePath :=
    (if isPrivate then userId +:+ "/private" else userId) +:+ "/" +:+ key in
  Js.all_chars Js.is_alnum c = true ->
  Js.all_chars Js.is_alnum_or_space n = true ->
  Js.pop (Js.split "." (File.name file)) = Some "pdf" ->
  respond DateNow w = (now, w1) ->
  respond (StorageUpload filePath file) w1 = (None, w2) ->
  exec (uploadDocument getPublicUrl userId file n c isPrivate) w
  = (Returned {| Stored.publicUrl := getPublicUrl filePath;
                 Stored.path := filePath |},
     w2, [DateNow; StorageUpload filePath file])
  /\ Js.pop (Js.split "/" filePath) = Some key
  /\ parseFilename key = {| category := c; displayName := n |}.
Proof.
  intros key filePath Hcat Hname Hpdf Hnow Hupload. split_and!.
  - unfold uploadDocument. rewrite Hpdf. cbn. rewrite Hnow.
    fold key filePath. by rewrite Hupload.
  - unfold filePath. rewrite sep_app. apply pop_split_app.
    apply encodeKey_no_slash; [|
      apply (all_chars_excludes Js.is_word); [done|apply replace_non_alnum_word]
      |done].
    by apply (all_chars_excludes Js.is_alnum).
  - unfold key. rewrite encodeKey_parse; [|
      by apply (all_chars_excludes Js.is_alnum)|done|done].
    by rewrite replace_underscores_sanitized.
Qed.
End Runs.

(** ** The theorems at work on the fixture *)

Lemma copy_failure_aborts_witness :
  let down := Demo.with_outage Demo.copy_down Demo.backend in
  let path := "u1/1709251200000_tax_Return_2023.pdf" in
  let trashed := "u1/trash/1709251200000_tax_Return_2023.pdf" in
  let src := "u1/trash/1709251200000_old_Lease.pdf" in
  let dest := "u1/1711929600000_1709251200000_old_Lease.pdf" in
  Backend.respond (StorageCopy path trashed) down = (Some "copy refused", down)
  /\ Backend.respond DateNow down = (1711929600000, down)
  /\ Backend.respond (StorageCopy src dest) down = (Some "copy refused", down)
  /\ run Backend.respond (moveToTrash "u1" path) down
     = (Raised "copy refused", down, [StorageCopy path trashed])
  /\ run Backend.respond
       (restoreFromTrash Demo.getPublicUrl "u1" "1709251200000_old_Lease.pdf")
       down
     = (Raised "copy refused", down, [DateNow; StorageCopy src dest]).
Proof.
  intros down path trashed src dest.
  assert (H1 : Backend.respond (StorageCopy path trashed) down
               = (Some "copy refused", down)) by reflexivity.
  assert (H2 : Backend.respond DateNow down = (1711929600000, down))
    by reflexivity.
  assert (H3 : Backend.respond (StorageCopy src dest) down
               = (Some "copy refused", down)) by reflexivity.
  split; [exact H1|]. split; [exact H2|]. split; [exact H3|].
  exact (copy_failure_aborts Backend.respond Demo.getPublicUrl "u1" path
           "1709251200000_old_Lease.pdf" 1711929600000 "copy refused"
           "copy refused" down down down down down H1 H2 H3).
Defined.

Lemma listUserDocuments_listing_failures_witness :
  let dark := Demo.with_outage Demo.list_down Demo.backend in
  let dim := Demo.with_outage Demo.private_down Demo.backend in
  let data := Backend.list_dir "u1" 100 dim in
  let listed := listUserDocuments Demo.getPublicUrl "u1" in
  Backend.respond (StorageList "u1" 100) dark = (ListErr "listing refused", dark)
  /\ Backend.respond (StorageList "u1" 100) dim = (ListOk data, dim)
  /\ Backend.respond (StorageList "u1/private" 100) dim
     = (ListErr "listing refused", dim)
  /\ (run Backend.respond listed dark).1.1 = Raised "listing refused"
  /\ (run Backend.respond listed dim).1.1
     = Returned
         [ {| DocumentRecord.name := "Return 2023";
              DocumentRecord.path := "u1/1709251200000_tax_Return_2023.pdf";
              DocumentRecord.publicUrl :=
                Demo.getPublicUrl "u1/1709251200000_tax_Return_2023.pdf";
              DocumentRecord.size := 5;
              DocumentRecord.category := "tax";
              DocumentRecord.created_at := "2024-03-01T00:00:00.000Z" |} ].
Proof.
  intros dark dim data listed.
  assert (H1 : Backend.respond (StorageList "u1" 100) dark
               = (ListErr "listing refused", dark)) by reflexivity.
  assert (H2 : Backend.respond (StorageList "u1" 100) dim = (ListOk data, dim))
    by reflexivity.
  assert (H3 : Backend.respond (StorageList "u1/private" 100) dim
               = (ListErr "listing refused", dim)) by reflexivity.
  split; [exact H1|]. split; [exact H2|]. split; [exact H3|].
  destruct (listUserDocuments_listing_failures Backend.respond
              Demo.getPublicUrl "u1" "listing refused" "listing refused" data
              dark dark dim dim dim H1 H2 H3) as (Hraised & _ & Hpartial & _).
  split; [exact Hraised|]. exact Hpartial.
Defined.

Lemma listUserDocuments_files_only_witness :
  let b := Demo.backend in
  let regular := Backend.list_dir "u1" 100 b in
  let private := Backend.list_dir "u1/private" 100 b in
  Backend.respond (StorageList "u1" 100) b = (ListOk regular, b)
  /\ Backend.respond (StorageList "u1/private" 100) b = (ListOk private, b)
  /\ exists regularDocs privateDocs,
       (run Backend.respond (listUserDocuments Demo.getPublicUrl "u1") b).1.1
       = Returned (regularDocs ++ privateDocs)
       /\ (forall d, In d (regularDocs ++ privateDocs) ->
             (0 < DocumentRecord.size d)%N)
       /\ (forall d, In d privateDocs -> DocumentRecord.category d = "private").
Proof.
  intros b regular private.
  assert (H1 : Backend.respond (StorageList "u1" 100) b = (ListOk regular, b))
    by reflexivity.
  assert (H2 : Backend.respond (StorageList "u1/private" 100) b
               = (ListOk private, b)) by reflexivity.
  split; [exact H1|]. split; [exact H2|].
  destruct (listUserDocuments_files_only Backend.respond Demo.getPublicUrl
              "u1" regular (ListOk private) b b b H1 H2)
    as (regularDocs & privateDocs & Hrun & _ & _ & Hsize & Hcat).
  exists regularDocs, privateDocs. split; [exact Hrun|]. split; assumption.
Defined.

Lemma purgeOldTrash_removes_due_witness :
  let b := Demo.backend in
  let data := Backend.list_dir "u1/trash" 100 b in
  let purge := purgeOldTrash Demo.getPublicUrl Demo.getTime "u1" 30 in
  Backend.respond DateNow b = (1711929600000, b)
  /\ Backend.respond (StorageList "u1/trash" 100) b = (ListOk data, b)
  /\ exists toDelete,
       (forall p, In p toDelete <->
          exists obj ms,
            In obj data
            /\ p = "u1" +:+ "/trash/" +:+ FileObject.name obj
            /\ FileObject.size_or_0 obj <> 0%N
            /\ Demo.getTime (FileObject.created_at obj) = Some ms
            /\ ms < 1711929600000 - 30 * 86400000)
       /\ (run Backend.respond purge b).1.1 = Returned tt
       /\ (run Backend.respond purge b).2
          = [DateNow; StorageList ("u1" +:+ "/trash") 100]
            ++ match toDelete with
               | [] => []
               | _ :: _ => [StorageRemove toDelete]
               end.
Proof.
  intros b data purge.
  assert (H1 : Backend.respond DateNow b = (1711929600000, b)) by reflexivity.
  assert (H2 : Backend.respond (StorageList "u1/trash" 100) b = (ListOk data, b))
    by reflexivity.
  split; [exact H1|]. split; [exact H2|].
  exact (purgeOldTrash_removes_due Backend.respond Demo.getPublicUrl
           Demo.getTime "u1" 30 1711929600000 data b b b H1 H2).
Defined.

Lemma restore_lands_in_public_prefix_witness :
  let b := Demo.backend in
  let path := "u1/private/1711843200000_medical_Blood_Test.pdf" in
  Backend.respond DateNow b = (1711929600000, b)
  /\ exists filename,
       Js.pop (Js.split "/" path) = Some filename
       /\ head (run Backend.respond (moveToTrash "u1" path) b).2
          = Some (StorageCopy path ("u1" +:+ "/trash/" +:+ filename))
       /\ Js.startsWith ("u1" +:+ "/private/")
            ("u1" +:+ "/" +:+ Js.of_number 1711929600000 +:+ "_" +:+ filename)
          = false.
Proof.
  intros b path.
  assert (H1 : Backend.respond DateNow b = (1711929600000, b)) by reflexivity.
  split; [exact H1|].
  destruct (restore_lands_in_public_prefix Backend.respond Demo.getPublicUrl
              "u1" path 1711929600000 b b b H1)
    as (filename & Hpop & _ & _ & Hhead & _ & _ & Hpublic).
  exists filename. split; [exact Hpop|]. split; [exact Hhead|exact Hpublic].
Defined.

Lemma restore_shifts_category_witness :
  let filename := encodeKey 1709251200000 "tax" "Return_2023" (Some "pdf") in
  let path := "u1" +:+ "/" +:+ filename in
  let restored := Js.of_number 1711929600000 +:+ "_" +:+ filename in
  let src := "u1" +:+ "/trash/" +:+ filename in
  let dest := "u1" +:+ "/" +:+ restored in
  let w := Demo.backend in
  let v := (run Backend.respond (moveToTrash "u1" path) w).1.2 in
  Js.pop (Js.split "/" path) = Some filename
  /\ Backend.respond DateNow v = (1711929600000, v)
  /\ head (run Backend.respond (moveToTrash "u1" path) w).2
     = Some (StorageCopy path src)
  /\ take 2 (run Backend.respond
               (restoreFromTrash Demo.getPublicUrl "u1" filename) v).2
     = [DateNow; StorageCopy src dest]
  /\ (run Backend.respond (restoreFromTrash Demo.getPublicUrl "u1" filename)
        v).1.1
     = Returned {| Stored.publicUrl := Demo.getPublicUrl dest;
                   Stored.path := dest |}
  /\ restored = "1711929600000_1709251200000_tax_Return_2023.pdf"
  /\ category (parseFilename restored) = "1709251200000"
  /\ displayName (parseFilename restored) = "tax Return 2023".
Proof.
  intros filename path restored src dest w v.
  assert (H1 : Js.pop (Js.split "/" path) = Some filename) by reflexivity.
  assert (H2 : Backend.respond DateNow v = (1711929600000, v)) by reflexivity.
  destruct (restore_shifts_category Backend.respond Demo.getPublicUrl "u1" path
              "tax" "Return_2023" "pdf" 1709251200000 1711929600000
              w v v H1 H2) as (Hmove & Hcalls & Hout & _ & Hcat & Hshown).
  split_and!; [exact H1|exact H2|exact Hmove|exact Hcalls|exact Hout
              |reflexivity|exact Hcat|exact (Hshown eq_refl eq_refl)].
Defined.

Lemma codec_roundtrip_witness :
  let file := {| File.name := "scan.final.pdf";
                 File.type := "application/pdf"; File.size := 3 |} in
  let key := encodeKey 1711929600000 "tax" (Js.replace_non_alnum "My Report 2")
               (Some "pdf") in
  let filePath := "u1" +:+ "/" +:+ key in
  let b := Demo.backend in
  let b2 := (Backend.respond (StorageUpload filePath file) b).2 in
  Js.all_chars Js.is_alnum "tax" = true
  /\ Js.all_chars Js.is_alnum_or_space "My Report 2" = true
  /\ Js.pop (Js.split "." (File.name file)) = Some "pdf"
  /\ Backend.respond DateNow b = (1711929600000, b)
  /\ Backend.respond (StorageUpload filePath file) b = (None, b2)
  /\ key = "1711929600000_tax_My_Report_2.pdf"
  /\ Js.pop (Js.split "/" filePath) = Some key
  /\ parseFilename key = {| category := "tax"; displayName := "My Report 2" |}.
Proof.
  intros file key filePath b b2.
  assert (H1 : Js.all_chars Js.is_alnum "tax" = true) by reflexivity.
  assert (H2 : Js.all_chars Js.is_alnum_or_space "My Report 2" = true)
    by reflexivity.
  assert (H3 : Js.pop (Js.split "." (File.name file)) = Some "pdf")
    by reflexivity.
  assert (H4 : Backend.respond DateNow b = (1711929600000, b)) by reflexivity.
  assert (H5 : Backend.respond (StorageUpload filePath file) b = (None, b2))
    by reflexivity.
  destruct (codec_roundtrip Backend.respond Demo.getPublicUrl "u1"
              "My Report 2" "tax" file false 1711929600000 b b b2
              H1 H2 H3 H4 H5) as (_ & Hpop & Hparse).
  split_and!; [exact H1|exact H2|exact H3|exact H4|exact H5|reflexivity
              |exact Hpop|exact Hparse].
Defined.

(** ** Where the code and its description part ways *)

(** C2 as stated fails: an underscore in the category, which the class
    [[A-Za-z0-9_]+] allows, ends the category segment early.  The category
    ["tax_2023"] is decoded as ["tax"], and the rest of it moves into the
    display name. *)
Lemma codec_roundtrip_underscore_category :
  let c := "tax_2023" in
  let n := "Return" in
  let key := encodeKey 1709251200000 c (Js.replace_non_alnum n) (Some "pdf") in
  Js.truthy c = true
  /\ Js.all_chars Js.is_word c = true
  /\ Js.all_chars Js.is_alnum_or_space n = true
  /\ key = "1709251200000_tax_2023_Return.pdf"
  /\ parseFilename key = {| category := "tax"; displayName := "2023 Return" |}
  /\ category (parseFilename key) <> c
  /\ displayName (parseFilename key) <> n.
Proof. vm_compute. split_and!; done. Qed.

(** C4 as stated fails: the [name] of a returned document is the display
    name decoded from the filename, with the extension stripped.  On the
    fixture the entry [1709251200000_tax_Return_2023.pdf] is returned with
    the name ["Return 2023"], which contains no dot. *)
Lemma listUserDocuments_name_without_dot :
  exists d docs,
    (run Backend.respond (listUserDocuments Demo.getPublicUrl "u1")
       Demo.backend).1.1 = Returned docs
    /\ In d docs
    /\ DocumentRecord.path d = "u1/1709251200000_tax_Return_2023.pdf"
    /\ DocumentRecord.name d = "Return 2023"
    /\ Js.includes "." (DocumentRecord.name d) = false.
Proof.
  eexists _, _. split; [vm_compute; reflexivity|].
  split; [left; reflexivity|]. by split_and!.
Qed.

(** C10 as stated fails on the display name.  With the stored name
    [Return_2023] the restored filename decodes to ["tax Return 2023"], the
    underscore shown as a space, not to [<cat> <name>] as stored; and with
    the extension [tar-gz], which does not match [\w+], the extension stays
    in the display name. *)
Lemma restored_display_name_differs :
  let stored := encodeKey 1709251200000 "tax" "Return_2023" (Some "pdf") in
  let restored := Js.of_number 1711929600000 +:+ "_" +:+ stored in
  let archive := encodeKey 1709251200000 "tax" "Return" (Some "tar-gz") in
  let restored' := Js.of_number 1711929600000 +:+ "_" +:+ archive in
  stored = "1709251200000_tax_Return_2023.pdf"
  /\ restored = "1711929600000_1709251200000_tax_Return_2023.pdf"
  /\ parseFilename restored
     = {| category := "1709251200000"; displayName := "tax Return 2023" |}
  /\ displayName (parseFilename restored) <> "tax" +:+ " " +:+ "Return_2023"
  /\ archive = "1709251200000_tax_Return.tar-gz"
  /\ parseFilename restored'
     = {| category := "1709251200000"; displayName := "tax Return.tar-gz" |}
  /\ displayName (parseFilename restored') <> "tax" +:+ " " +:+ "Return".
Proof. vm_compute. split_and!; done. Qed.

(** C1.  On the fixture, [moveToTrash] moves the tax return to
    [u1/trash/...] and then writes a tracking row whose [document_path] is
    the path the document had before, not the trash path.  The restore that
    follows deletes by trash path, finds nothing, and the row stays in the
    table. *)
Theorem moveToTrash_tracks_original_path :
  let path := "u1/1709251200000_tax_Return_2023.pdf" in
  let filename := "1709251200000_tax_Return_2023.pdf" in
  let trashed := "u1/trash/1709251200000_tax_Return_2023.pdf" in
  let row := {| user_id := "u1"; document_path := path;
                document_name := filename |} in
  let moved := run Backend.respond (moveToTrash "u1" path) Demo.backend in
  let restored :=
    run Backend.respond (restoreFromTrash Demo.getPublicUrl "u1" filename)
      moved.1.2 in
  moved.1.1 = Returned tt
  /\ Backend.objects moved.1.2 !! path = None
  /\ Backend.objects moved.1.2 !! trashed
     = Some (Demo.obj 5 "2024-04-01T00:00:00.000Z")
  /\ last moved.2 = Some (TableUpsert deleted_documents row)
  /\ Backend.tracked moved.1.2 = [row]
  /\ document_path row <> trashed
  /\ restored.1.1
     = Returned
         {| Stored.publicUrl :=
              Demo.getPublicUrl
                "u1/1711929600000_1709251200000_tax_Return_2023.pdf";
            Stored.path := "u1/1711929600000_1709251200000_tax_Return_2023.pdf" |}
  /\ last restored.2 = Some (TableDelete deleted_documents "u1" trashed)
  /\ Backend.tracked restored.1.2 = [row].
Proof. vm_compute. split_and!; done. Qed.

(** On the fixture, with every store request refused, deleting a path that
    does not exist still returns, after one removal, three deletions and
    three warnings. *)
Example deletePermanent_all_down :
  let down := Demo.with_outage Demo.all_down Demo.backend in
  let ran := run Backend.respond (deletePermanent "u1/nothing.pdf") down in
  ran.1.1 = Returned tt
  /\ ran.2
     = [StorageRemove ["u1/nothing.pdf"];
        TableDelete smart_folder_assignments "u1" "u1/nothing.pdf";
        ConsoleWarn "Failed to clean up folder assignments:" "service unavailable";
        TableDelete document_shares "u1" "u1/nothing.pdf";
        ConsoleWarn "Failed to clean up document shares:" "service unavailable";
        TableDelete deleted_documents "u1" "u1/nothing.pdf";
        ConsoleWarn "Failed to clean up deleted documents tracking:"
          "service unavailable"].
Proof. vm_compute. split_and!; done. Qed.

(** On the fixture, of a 31-day-old file, a 1-day-old file and a 40-day-old
    empty placeholder, a purge at 30 days removes the first and nothing else. *)
Example purgeOldTrash_thirty_days :
  (run Backend.respond (purgeOldTrash Demo.getPublicUrl Demo.getTime "u1" 30)
     Demo.backend).2
  = [DateNow; StorageList "u1/trash" 100;
     StorageRemove ["u1/trash/1709251200000_old_Lease.pdf"]].
Proof. vm_compute. done. Qed.

(** ** Beyond the round trip: what the codec does on any input *)

Section CodecMore.
Implicit Types (s c safeName name : string) (sep : ascii).

Lemma split_cons sep a s :
  Js.split sep (String a s)
  = if Ascii.eqb a sep then "" :: Js.split sep s
    else match Js.split sep s with
         | [] => [String a ""]
         | h :: t => String a h :: t
         end.
Proof. reflexivity. Qed.

(** Splitting distributes over a separator in the middle. *)
Lemma split_app_all sep s t :
  Js.split sep (s +:+ String sep t) = Js.split sep s ++ Js.split sep t.
Proof.
  induction s as [|a s IH].
  - rewrite append_nil, split_cons. by rewrite Ascii.eqb_refl.
  - rewrite append_cons, !split_cons, IH.
    destruct (Ascii.eqb a sep); [done|].
    pose proof (split_not_nil sep s). by destruct (Js.split sep s).
Qed.

Lemma split_segments sep s :
  Forall (fun seg => Js.includes sep seg = false) (Js.split sep s).
Proof.
  induction s as [|a s IH]; [by repeat constructor|]. rewrite split_cons.
  destruct (Ascii.eqb a sep) eqn:Ha; [by constructor|].
  destruct (Js.split sep s) as [|h l].
  { constructor; [|done]. cbn [Js.includes]. by rewrite Ha. }
  inversion IH as [|? ? Hh Hl]; subst. constructor; [|done].
  cbn [Js.includes]. by rewrite Ha, Hh.
Qed.

Lemma replace_underscores_clean s :
  Js.includes "_" (Js.replace_underscores s) = false.
Proof.
  unfold Js.replace_underscores.
  induction s as [|a s IH]; cbn [Js.map_chars Js.includes]; [done|].
  rewrite IH, orb_false_r. by destruct (Ascii.eqb a "_") eqn:E.
Qed.

Lemma shown_char a :
  (if Ascii.eqb (if Js.is_alnum a then a else "_"%char) "_"
   then " "%char else if Js.is_alnum a then a else "_"%char)
  = if Js.is_alnum a then a else " "%char.
Proof. destruct a as [[] [] [] [] [] [] [] []]; by vm_compute. Qed.

Lemma replace_underscores_non_alnum name :
  Js.replace_underscores (Js.replace_non_alnum name) = shown name.
Proof.
  unfold Js.replace_underscores, Js.replace_non_alnum, shown.
  induction name as [|a s IH]; cbn [Js.map_chars]; [done|].
  by rewrite IH, shown_char.
Qed.

Lemma of_number_inj (m n : Z) : Js.of_number m = Js.of_number n -> m = n.
Proof.
  unfold Js.of_number. intros Heq. apply DecimalZ.to_int_inj.
  assert (Hok : forall z, NilZero.int_of_string
                            (NilZero.string_of_int (Z.to_int z))
                          = Some (Z.to_int z)).
  { intros z. apply NilZero.isi; destruct z as [|q|q]; cbn; try discriminate;
      intros [= Hnil]; by apply (DecimalPos.Unsigned.to_uint_nonnil q). }
  pose proof (Hok m) as Hm. rewrite Heq, Hok in Hm. congruence.
Qed.

(** X1.  Keys minted at different clock readings differ, whatever the
    categories, names and extensions are, and so do the paths built from
    them under one prefix: the timestamp is the first underscore-segment of
    the key. *)
Theorem encodeKey_timestamps_differ (t1 t2 : Z) (c1 c2 n1 n2 prefix : string)
    (e1 e2 : option string) :
  t1 <> t2 ->
  encodeKey t1 c1 n1 e1 <> encodeKey t2 c2 n2 e2
  /\ prefix +:+ "/" +:+ encodeKey t1 c1 n1 e1
     <> prefix +:+ "/" +:+ encodeKey t2 c2 n2 e2.
Proof.
  intros Hne.
  assert (Hkeys : encodeKey t1 c1 n1 e1 <> encodeKey t2 c2 n2 e2).
  { unfold encodeKey. intros Heq. apply Hne, of_number_inj.
    apply (f_equal (Js.split "_")) in Heq.
    rewrite !sep_app in Heq.
    rewrite !(split_app _ _ _ (of_number_no_underscore _)) in Heq.
    congruence. }
  split; [done|]. intros Heq.
  apply (inj (String.append prefix)) in Heq.
  by apply (inj (String.append "/")) in Heq.
Qed.

(** X2.  Whatever category, name and extension went into a key, the key has
    at least three underscore-segments, so it is never decoded as
    ["other"] by default: the decoded category is the part of the category
    before its first underscore. *)
Theorem parse_encoded_category (now : Z) (c safeName : string)
    (fileExt : option string) :
  exists seg rest,
    Js.split "_" c = seg :: rest
    /\ (3 <= length (Js.split "_" (encodeKey now c safeName fileExt)))%nat
    /\ category (parseFilename (encodeKey now c safeName fileExt)) = seg.
Proof.
  pose proof (split_not_nil "_" c) as Hnil.
  destruct (Js.split "_" c) as [|seg rest] eqn:Hc; [done|].
  exists seg, rest. split; [done|].
  assert (Hsplit : Js.split "_" (encodeKey now c safeName fileExt)
                   = Js.of_number now :: seg
                       :: rest ++ Js.split "_" (safeName +:+ "." +:+ Js.tpl fileExt)).
  { unfold encodeKey.
    rewrite !sep_app, (split_app _ _ _ (of_number_no_underscore now)).
    by rewrite split_app_all, Hc. }
  pose proof (split_length "_" (safeName +:+ "." +:+ Js.tpl fileExt)) as Hlen.
  unfold parseFilename. rewrite Hsplit.
  destruct (decide _) as [_|Hshort]; [|cbn in Hshort; rewrite length_app in Hshort; lia].
  split; [|done]. cbn. rewrite length_app. lia.
Qed.

(** X3.  For a name of ASCII characters, a category without underscore and
    an extension matching [\w+], the display name decoded from a key is the
    uploaded name with every character outside [[a-zA-Z0-9]] shown as a
    space: punctuation is lost, length and letters are kept. *)
Theorem parse_encoded_name (now : Z) (c name ext : string) :
  Js.all_chars is_ascii name = true ->
  Js.includes "_" c = false ->
  Js.truthy ext = true -> Js.all_chars Js.is_word ext = true ->
  displayName
    (parseFilename (encodeKey now c (Js.replace_non_alnum name) (Some ext)))
  = shown name
  /\ String.length (shown name) = String.length name.
Proof.
  intros _ Hc Hne Hext. rewrite encodeKey_parse by done. cbn [displayName].
  split; [apply replace_underscores_non_alnum|].
  unfold shown. induction name as [|a s IH]; cbn; [done|]. by rewrite IH.
Qed.

(** X4.  For every filename, the decoded category contains no underscore;
    the decoded display name contains one only when the filename had fewer
    than three segments and was returned as it is. *)
Theorem parseFilename_underscores (filename : string) :
  Js.includes "_" (category (parseFilename filename)) = false
  /\ (Js.includes "_" (displayName (parseFilename filename)) = true ->
      parseFilename filename
      = {| category := "other"; displayName := filename |}).
Proof.
  unfold parseFilename.
  pose proof (split_segments "_" filename) as Hsegs.
  destruct (decide _) as [Hlen|Hshort]; cbn [category displayName].
  - split.
    + destruct (Js.split "_" filename) as [|p0 [|p1 l]]; [done|done|].
      inversion Hsegs as [|? ? _ Hl]; subst.
      by inversion Hl as [|? ? Hp1 _]; subst.
    + by rewrite replace_underscores_clean.
  - by split.
Qed.
End CodecMore.

Lemma encodeKey_timestamps_differ_witness :
  1711929600000 <> 1711929600001
  /\ encodeKey 1711929600000 "tax" "Return" (Some "pdf")
     <> encodeKey 1711929600001 "tax" "Return" (Some "pdf")
  /\ "u1" +:+ "/" +:+ encodeKey 1711929600000 "tax" "Return" (Some "pdf")
     <> "u1" +:+ "/" +:+ encodeKey 1711929600001 "tax" "Return" (Some "pdf").
Proof.
  assert (H : 1711929600000 <> 1711929600001) by lia.
  split; [exact H|].
  exact (encodeKey_timestamps_differ 1711929600000 1711929600001 "tax" "tax"
           "Return" "Return" "u1" (Some "pdf") (Some "pdf") H).
Defined.

Lemma parse_encoded_name_witness :
  Js.all_chars is_ascii "Q1/Q2 (final).v2" = true
  /\ Js.includes "_" "tax" = false
  /\ Js.truthy "pdf" = true
  /\ Js.all_chars Js.is_word "pdf" = true
  /\ displayName
       (parseFilename
          (encodeKey 1711929600000 "tax"
             (Js.replace_non_alnum "Q1/Q2 (final).v2") (Some "pdf")))
     = "Q1 Q2  final  v2".
Proof.
  assert (H0 : Js.all_chars is_ascii "Q1/Q2 (final).v2" = true) by reflexivity.
  assert (H1 : Js.includes "_" "tax" = false) by reflexivity.
  assert (H2 : Js.truthy "pdf" = true) by reflexivity.
  assert (H3 : Js.all_chars Js.is_word "pdf" = true) by reflexivity.
  split_and!; [exact H0|exact H1|exact H2|exact H3|].
  exact (proj1 (parse_encoded_name 1711929600000 "tax" "Q1/Q2 (final).v2"
                  "pdf" H0 H1 H2 H3)).
Defined.

(** ** The labels of [formatDate] *)

Section DateLabels.
Context {World : Type} (respond : forall c : Call, World -> Resp c * World).
Variable startOfLocalDay : Z -> Z.
Variable toLocaleDateString : Z -> string.

Abbreviation exec := (run respond).
Abbreviation label := (formatDate startOfLocalDay toLocaleDateString).

Ltac div_lia := Z.to_euclidean_division_equations; lia.

Lemma formatDate_run (date now : Z) (w w1 : World) :
  respond DateNow w = (now, w1) ->
  exists text,
    exec (label date) w = (Returned text, w1, [DateNow])
    /\ let d := (startOfLocalDay now - startOfLocalDay date) / 86400000 in
       text = if d =? 0 then "today"
              else if d =? 1 then "yesterday"
              else if (1 <? d) && (d <=? 7)
              then Js.of_number d +:+ " days ago"
              else if (7 <? d) && (d <=? 30)
              then Js.of_number (d / 7) +:+ " week"
                     +:+ (if 1 <? d / 7 then "s" else "") +:+ " ago"
              else toLocaleDateString date.
Proof.
  intros Hnow. unfold formatDate. cbn [bind call run]. rewrite Hnow.
  change (1000 * 60 * 60 * 24) with 86400000.
  set (d := (startOfLocalDay now - startOfLocalDay date) / 86400000).
  eexists. split; [|reflexivity].
  destruct (d =? 0); [done|]. destruct (d =? 1); [done|].
  destruct ((1 <? d) && (d <=? 7)); [done|].
  by destruct ((7 <? d) && (d <=? 30)).
Qed.

(** X5.  [formatDate] compares the starts of the two local calendar days.
    When today's starts at or after the upload's and less than 24 hours
    after it, the label is ["today"], also for an upload made on the
    previous calendar day when that day was 23 hours long; when it starts
    from 24 to less than 48 hours after the upload's, the label is
    ["yesterday"].  The clock is read once and nothing is raised. *)
Theorem formatDate_recent (date now : Z) (w w1 : World) :
  respond DateNow w = (now, w1) ->
  let diffTime := startOfLocalDay now - startOfLocalDay date in
  0 <= diffTime < 172800000 ->
  exec (label date) w
  = (Returned (if diffTime <? 86400000 then "today" else "yesterday"),
     w1, [DateNow]).
Proof.
  intros Hnow diffTime Hrange.
  destruct (formatDate_run date now w w1 Hnow) as (text & -> & ->).
  fold diffTime. cbv zeta. clearbody diffTime. f_equal. f_equal. f_equal.
  destruct (Z.ltb_spec diffTime 86400000).
  - replace (diffTime / 86400000) with 0 by div_lia. done.
  - replace (diffTime / 86400000) with 1 by div_lia. done.
Qed.

(** X6.  From 2 to 7 whole days back the label is ["<n> days ago"]: a
    document uploaded exactly a week ago reads ["7 days ago"].  From 8 to 13
    days it is ["1 week ago"], and from 14 to 30 days ["<n> weeks ago"] with
    [n] the whole weeks, between 2 and 4. *)
Theorem formatDate_days_and_weeks (date now : Z) (w w1 : World) :
  respond DateNow w = (now, w1) ->
  let d := (startOfLocalDay now - startOfLocalDay date) / 86400000 in
  2 <= d <= 30 ->
  exec (label date) w
  = (Returned (if d <=? 7 then Js.of_number d +:+ " days ago"
               else if d <=? 13 then "1 week ago"
               else Js.of_number (d / 7) +:+ " weeks ago"),
     w1, [DateNow])
  /\ (14 <= d -> 2 <= d / 7 <= 4).
Proof.
  intros Hnow d Hrange.
  destruct (formatDate_run date now w w1 Hnow) as (text & -> & ->).
  fold d. cbv zeta. clearbody d. split; [|div_lia]. f_equal. f_equal. f_equal.
  destruct (Z.eqb_spec d 0); [lia|]. destruct (Z.eqb_spec d 1); [lia|].
  destruct (Z.leb_spec d 7).
  - by replace (1 <? d) with true by (symmetry; apply Z.ltb_lt; div_lia).
  - replace (1 <? d) with true by (symmetry; apply Z.ltb_lt; div_lia).
    replace (7 <? d) with true by (symmetry; apply Z.ltb_lt; div_lia).
    replace (d <=? 30) with true by (symmetry; apply Z.leb_le; lia).
    cbn [andb]. destruct (Z.leb_spec d 13).
    + by replace (d / 7) with 1 by div_lia.
    + by replace (1 <? d / 7) with true by (symmetry; apply Z.ltb_lt; div_lia).
Qed.

(** X7.  An upload whose local day starts after today's, or more than 30
    whole days before it, is labelled with its [en-US] calendar date: a
    date in the future never reads ["today"] or ["<n> days ago"]. *)
Theorem formatDate_absolute (date now : Z) (w w1 : World) :
  respond DateNow w = (now, w1) ->
  let d := (startOfLocalDay now - startOfLocalDay date) / 86400000 in
  d < 0 \/ 30 < d ->
  exec (label date) w = (Returned (toLocaleDateString date), w1, [DateNow]).
Proof.
  intros Hnow d Hrange.
  destruct (formatDate_run date now w w1 Hnow) as (text & -> & ->).
  fold d. cbv zeta. clearbody d. f_equal. f_equal. f_equal.
  destruct (Z.eqb_spec d 0); [lia|]. destruct (Z.eqb_spec d 1); [lia|].
  destruct (Z.ltb_spec 1 d), (Z.leb_spec d 7), (Z.ltb_spec 7 d),
    (Z.leb_spec d 30); cbn [andb]; try done; lia.
Qed.

End DateLabels.

(** ** Beyond the claims: the other paths through the helpers *)

Section MoreRuns.
Context {World : Type} (respond : forall c : Call, World -> Resp c * World).
Variable getPublicUrl : string -> string.
Variable getTime : string -> option Z.

Abbreviation exec := (run respond).

(** X8.  When the upload is refused, [uploadDocument] raises that error
    after the clock and that one request: no public URL is derived and
    nothing else is asked of the stores. *)
Theorem uploadDocument_upload_failure (userId name c : string) (file : File.t)
    (isPrivate : bool) (now : Z) (e : Error) (w w1 w2 : World) :
  let filePath :=
    (if isPrivate then userId +:+ "/private" else userId) +:+ "/"
      +:+ encodeKey now c (Js.replace_non_alnum name)
            (Js.pop (Js.split "." (File.name file))) in
  respond DateNow w = (now, w1) ->
  respond (StorageUpload filePath file) w1 = (Some e, w2) ->
  exec (uploadDocument getPublicUrl userId file name c isPrivate) w
  = (Raised e, w2, [DateNow; StorageUpload filePath file]).
Proof.
  intros filePath Hnow Hupload. unfold uploadDocument. cbn.
  rewrite Hnow. fold filePath. by rewrite Hupload.
Qed.

(** X9.  The extension of the stored key is what follows the last dot of
    the file's name, and the whole name when it has no dot: a file called
    [README] is stored as [..._README.README]. *)
Theorem uploadDocument_extension (userId name c : string) (file : File.t)
    (isPrivate : bool) (now : Z) (w w1 : World) :
  respond DateNow w = (now, w1) ->
  exists ext,
    Js.includes "." ext = false
    /\ (File.name file = ext
        \/ exists stem, File.name file = stem +:+ "." +:+ ext)
    /\ take 2 (exec (uploadDocument getPublicUrl userId file name c isPrivate)
                w).2
       = [DateNow;
          StorageUpload
            ((if isPrivate then userId +:+ "/private" else userId) +:+ "/"
               +:+ Js.of_number now +:+ "_" +:+ c +:+ "_"
               +:+ Js.replace_non_alnum name +:+ "." +:+ ext)
            file].
Proof.
  intros Hnow.
  destruct (pop_split_segment "." (File.name file))
    as (ext & Hpop & Hdot & Hname).
  exists ext. split; [done|]. split; [done|].
  unfold uploadDocument. rewrite Hpop. cbn. rewrite Hnow.
  destruct (respond (StorageUpload _ file) w1) as [[e|] w2]; by cbn.
Qed.



(** X11.  When the copy went through and the removal of the original is
    refused, [moveToTrash] raises the removal error and stops: both copies
    exist, and no reference is cleaned up and no tracking row written. *)
Theorem moveToTrash_remove_failure (userId path : string) (e : Error)
    (w w1 w2 : World) :
  let trashed := userId +:+ "/trash/" +:+ Js.tpl (Js.pop (Js.split "/" path)) in
  respond (StorageCopy path trashed) w = (None, w1) ->
  respond (StorageRemove [path]) w1 = (Some e, w2) ->
  exec (moveToTrash userId path) w
  = (Raised e, w2, [StorageCopy path trashed; StorageRemove [path]]).
Proof.
  intros trashed Hcopy Hdel. unfold moveToTrash. cbn. fold trashed.
  rewrite Hcopy. cbn. by rewrite Hdel.
Qed.

(** X12.  Once the copy and the removal went through, [moveToTrash] returns
    normally whatever the tables answer.  Its store requests are, in order,
    the copy, the removal, the three clean-up deletions keyed on the original
    path and the upsert of the tracking row; a refused table request only
    adds a warning. *)
Theorem moveToTrash_success (userId path : string) (w w1 w2 : World) :
  let filename := Js.pop (Js.split "/" path) in
  let trashed := userId +:+ "/trash/" +:+ Js.tpl filename in
  respond (StorageCopy path trashed) w = (None, w1) ->
  respond (StorageRemove [path]) w1 = (None, w2) ->
  (exec (moveToTrash userId path) w).1.1 = Returned tt
  /\ List.filter is_remote (exec (moveToTrash userId path) w).2
     = [StorageCopy path trashed;
        StorageRemove [path];
        TableDelete smart_folder_assignments userId path;
        TableDelete document_shares userId path;
        TableDelete deleted_documents userId path;
        TableUpsert deleted_documents
          {| user_id := userId;
             document_path := path;
             document_name := Js.or_else filename "unknown" |}]
  /\ Forall (fun c => is_remote c = false ->
                      exists msg err, c = ConsoleWarn msg err)
       (exec (moveToTrash userId path) w).2.
Proof.
  intros filename trashed Hcopy Hdel. unfold moveToTrash.
  fold filename trashed. cbn. rewrite Hcopy. cbn. rewrite Hdel. cbn.
  rewrite run_bind.
  destruct (cleanup_never_raises respond userId path w2)
    as (w3 & calls & -> & Hremote & Hlog). cbn.
  destruct (respond (TableUpsert _ _) w3) as [[e|] w4]; cbn;
    [destruct (respond (ConsoleWarn _ e) w4) as [[] w5]; cbn|];
    (split; [done|]); (split; [by rewrite List.filter_app, Hremote|]);
    repeat (constructor; [discriminate|]);
    apply Forall_app; (split; [done|]);
    repeat constructor; intros; try discriminate; eauto.
Qed.

(** X13.  A path that ends with a slash has an empty final segment: the
    copy of [moveToTrash] then targets [<userId>/trash/] itself, and the
    tracking row is named ["unknown"]. *)
Theorem moveToTrash_trailing_slash (userId dir : string) (w w1 w2 : World) :
  let path := dir +:+ "/" in
  respond (StorageCopy path (userId +:+ "/trash/")) w = (None, w1) ->
  respond (StorageRemove [path]) w1 = (None, w2) ->
  head (exec (moveToTrash userId path) w).2
  = Some (StorageCopy path (userId +:+ "/trash/"))
  /\ last (List.filter is_remote (exec (moveToTrash userId path) w).2)
     = Some (TableUpsert deleted_documents
               {| user_id := userId;
                  document_path := path;
                  document_name := "unknown" |}).
Proof.
  intros path Hcopy Hdel.
  assert (Hpop : Js.pop (Js.split "/" path) = Some "").
  { unfold path. by apply pop_split_app. }
  assert (Htrashed : userId +:+ "/trash/" +:+ Js.tpl (Js.pop (Js.split "/" path))
                     = userId +:+ "/trash/").
  { by rewrite Hpop. }
  split.
  - rewrite (moveToTrash_first_call respond userId path "" w Hpop).
    rewrite Hpop in Htrashed. change (Js.tpl (Some "")) with "" in Htrashed.
    by rewrite Htrashed.
  - rewrite <- Htrashed in Hcopy.
    destruct (moveToTrash_upsert_row respond userId path w w1 w2 Hcopy Hdel)
      as [_ ->].
    by rewrite Hpop.
Qed.

(** X14.  Once its copy went through, [restoreFromTrash] returns the new
    path whatever follows.  It asks for the removal of the trash copy and does
    not look at the reply, then for the deletion of the tracking row of the
    trash path; a deletion that fails is followed by one warning on the
    console carrying the error, a deletion that succeeds by nothing. *)
Theorem restoreFromTrash_after_copy (userId filename : string) (now : Z)
    (v v0 v1 : World) :
  let src := userId +:+ "/trash/" +:+ filename in
  let dest := userId +:+ "/" +:+ Js.of_number now +:+ "_" +:+ filename in
  let msg := "Failed to remove from deleted documents tracking:" in
  respond DateNow v = (now, v0) ->
  respond (StorageCopy src dest) v0 = (None, v1) ->
  let '(_, v2) := respond (StorageRemove [src]) v1 in
  let '(r, v3) := respond (TableDelete deleted_documents userId src) v2 in
  exec (restoreFromTrash getPublicUrl userId filename) v
  = (Returned {| Stored.publicUrl := getPublicUrl dest; Stored.path := dest |},
     after_warning respond msg r v3,
     [DateNow; StorageCopy src dest; StorageRemove [src];
      TableDelete deleted_documents userId src] ++ warning msg r).
Proof.
  intros src dest msg Hnow Hcopy. unfold restoreFromTrash. cbn. rewrite Hnow.
  fold src dest. rewrite Hcopy. cbn.
  destruct (respond (StorageRemove [src]) v1) as [r0 v2].
  destruct (respond (TableDelete deleted_documents userId src) v2)
    as [[e|] v3]; cbn; [|done].
  by destruct (respond (ConsoleWarn _ e) v3) as [[] v4].
Qed.

(** X15.  When the trash listing fails, [purgeOldTrash] raises that error
    and removes nothing. *)
Theorem purgeOldTrash_listing_failure (userId : string) (days now : Z)
    (e : Error) (w w1 w2 : World) :
  respond DateNow w = (now, w1) ->
  respond (StorageList (userId +:+ "/trash") 100) w1 = (ListErr e, w2) ->
  exec (purgeOldTrash getPublicUrl getTime userId days) w
  = (Raised e, w2, [DateNow; StorageList (userId +:+ "/trash") 100]).
Proof.
  intros Hnow Hlist. unfold purgeOldTrash, listUserTrash. cbn.
  rewrite Hnow. cbn. by rewrite Hlist.
Qed.

(** X16.  Whatever the stores answer, [purgeOldTrash] never writes to a
    table, so the tracking rows of the files it removes stay behind, and it
    asks for at most one removal. *)
Theorem purgeOldTrash_leaves_tables (userId : string) (days : Z) (w : World) :
  let calls := (exec (purgeOldTrash getPublicUrl getTime userId days) w).2 in
  Forall (fun c => is_table_call c = false) calls
  /\ (length (List.filter is_removal calls) <= 1)%nat.
Proof.
  unfold purgeOldTrash, listUserTrash. cbn.
  destruct (respond DateNow w) as [now w1]. cbn.
  destruct (respond (StorageList _ 100) w1) as [[data|e] w2]; cbn;
    [|split; [by repeat constructor|cbn; lia]].
  destruct (map TrashRecord.path _) as [|p l]; cbn;
    [split; [by repeat constructor|cbn; lia]|].
  destruct (respond (StorageRemove (p :: l)) w2) as [r w3]. cbn.
  split; [by repeat constructor|lia].
Qed.

(** X17.  Retention is monotone: a trash record that qualifies for removal
    when files are kept [days2] days also qualifies when they are kept any
    shorter time [days1]. *)
Theorem purgeable_shorter_retention (now days1 days2 : Z) (t : TrashRecord.t) :
  days1 <= days2 ->
  purgeable getTime (now - days2 * 24 * 60 * 60 * 1000) t = true ->
  purgeable getTime (now - days1 * 24 * 60 * 60 * 1000) t = true.
Proof.
  intros Hdays. unfold purgeable.
  intros [Hsize Htime]%andb_prop. rewrite Hsize. cbn [andb].
  destruct (getTime (TrashRecord.deletedAt t)) as [ms|]; [|done].
  apply Z.ltb_lt in Htime. apply Z.ltb_lt. lia.
Qed.

(** X18.  Deleting a record of [listUserTrash] for good: when the user id
    holds no slash, [deletePermanent] on the record's path removes that path
    and keys its three clean-up deletions on that same user. *)
Theorem deletePermanent_of_trash_record (userId : string) (obj : FileObject.t)
    (w : World) :
  Js.includes "/" userId = false ->
  let path := TrashRecord.path (trashRecord getPublicUrl userId obj) in
  (exec (deletePermanent path) w).1.1 = Returned tt
  /\ List.filter is_remote (exec (deletePermanent path) w).2
     = [StorageRemove [path];
        TableDelete smart_folder_assignments userId path;
        TableDelete document_shares userId path;
        TableDelete deleted_documents userId path].
Proof.
  intros Huser path.
  assert (Hsplit : Js.split "/" path !! 0%nat = Some userId).
  { unfold path. cbn [TrashRecord.path trashRecord].
    change (userId +:+ "/trash/" +:+ FileObject.name obj)
      with (userId +:+ String "/" ("trash/" +:+ FileObject.name obj)).
    by rewrite split_app. }
  unfold deletePermanent. rewrite Hsplit.
  change (Js.tpl (Some userId)) with userId.
  rewrite run_bind, run_call.
  destruct (respond (StorageRemove [path]) w) as [r w0].
  destruct (cleanup_never_raises respond userId path w0)
    as (w' & calls & -> & Hremote & _).
  split; [done|]. cbn. by rewrite Hremote.
Qed.
End MoreRuns.

(** ** The further theorems at work on the fixture *)

Lemma formatDate_recent_witness :
  let b := Demo.backend in
  let date := 1711846800000 in
  let diffTime :=
    Calendar.startOfShortDay 1711929600000 - Calendar.startOfShortDay date in
  Backend.respond DateNow b = (1711929600000, b)
  /\ 0 <= diffTime < 172800000
  /\ Calendar.startOfLocalDay date <> Calendar.startOfLocalDay 1711929600000
  /\ run Backend.respond
       (formatDate Calendar.startOfShortDay Calendar.toLocaleDateString date) b
     = (Returned "today", b, [DateNow]).
Proof.
  intros b date diffTime.
  assert (H1 : Backend.respond DateNow b = (1711929600000, b)) by reflexivity.
  assert (H2 : 0 <= diffTime < 172800000) by (vm_compute; split; easy).
  split; [exact H1|]. split; [exact H2|]. split; [vm_compute; easy|].
  exact (formatDate_recent Backend.respond Calendar.startOfShortDay
           Calendar.toLocaleDateString date 1711929600000 b b H1 H2).
Defined.

Lemma formatDate_days_and_weeks_witness :
  let b := Demo.backend in
  let date := 1710979200000 in
  let d := (Calendar.startOfLocalDay 1711929600000
            - Calendar.startOfLocalDay date) / 86400000 in
  Backend.respond DateNow b = (1711929600000, b)
  /\ 2 <= d <= 30
  /\ run Backend.respond
       (formatDate Calendar.startOfLocalDay Calendar.toLocaleDateString date) b
     = (Returned "1 week ago", b, [DateNow]).
Proof.
  intros b date d.
  assert (H1 : Backend.respond DateNow b = (1711929600000, b)) by reflexivity.
  assert (H2 : 2 <= d <= 30) by (vm_compute; split; easy).
  split; [exact H1|]. split; [exact H2|].
  exact (proj1 (formatDate_days_and_weeks Backend.respond
                  Calendar.startOfLocalDay Calendar.toLocaleDateString date
                  1711929600000 b b H1 H2)).
Defined.

Lemma formatDate_absolute_witness :
  let b := Demo.backend in
  let tomorrow := 1712016000000 in
  let d := (Calendar.startOfLocalDay 1711929600000
            - Calendar.startOfLocalDay tomorrow) / 86400000 in
  Backend.respond DateNow b = (1711929600000, b)
  /\ (d < 0 \/ 30 < d)
  /\ run Backend.respond
       (formatDate Calendar.startOfLocalDay Calendar.toLocaleDateString
          tomorrow) b
     = (Returned "Apr 2, 2024", b, [DateNow]).
Proof.
  intros b tomorrow d.
  assert (H1 : Backend.respond DateNow b = (1711929600000, b)) by reflexivity.
  assert (H2 : d < 0 \/ 30 < d) by (left; vm_compute; reflexivity).
  split_and!; [exact H1|exact H2|].
  exact (formatDate_absolute Backend.respond Calendar.startOfLocalDay
           Calendar.toLocaleDateString tomorrow 1711929600000 b b H1 H2).
Defined.

Lemma uploadDocument_upload_failure_witness :
  let b := Demo.with_outage Outages.upload_down Demo.backend in
  let file := {| File.name := "scan.pdf"; File.type := "application/pdf";
                 File.size := 3 |} in
  let filePath := "u1/private/1711929600000_tax_My_Report.pdf" in
  Backend.respond DateNow b = (1711929600000, b)
  /\ Backend.respond (StorageUpload filePath file) b = (Some "upload refused", b)
  /\ run Backend.respond
       (uploadDocument Demo.getPublicUrl "u1" file "My Report" "tax" true) b
     = (Raised "upload refused", b, [DateNow; StorageUpload filePath file]).
Proof.
  intros b file filePath.
  assert (H1 : Backend.respond DateNow b = (1711929600000, b)) by reflexivity.
  assert (H2 : Backend.respond (StorageUpload filePath file) b
               = (Some "upload refused", b)) by reflexivity.
  split_and!; [exact H1|exact H2|].
  exact (uploadDocument_upload_failure Backend.respond Demo.getPublicUrl "u1"
           "My Report" "tax" file true 1711929600000 "upload refused" b b b
           H1 H2).
Defined.

Lemma uploadDocument_extension_witness :
  let b := Demo.backend in
  let file := {| File.name := "README"; File.type := "text/plain";
                 File.size := 3 |} in
  Backend.respond DateNow b = (1711929600000, b)
  /\ exists ext,
       Js.includes "." ext = false
       /\ (File.name file = ext
           \/ exists stem, File.name file = stem +:+ "." +:+ ext)
       /\ take 2 (run Backend.respond
                    (uploadDocument Demo.getPublicUrl "u1" file "Read me" "doc"
                       false) b).2
          = [DateNow;
             StorageUpload
               ("u1" +:+ "/" +:+ Js.of_number 1711929600000 +:+ "_" +:+ "doc"
                  +:+ "_" +:+ Js.replace_non_alnum "Read me" +:+ "." +:+ ext)
               file].
Proof.
  intros b file.
  assert (H1 : Backend.respond DateNow b = (1711929600000, b)) by reflexivity.
  split; [exact H1|].
  exact (uploadDocument_extension Backend.respond Demo.getPublicUrl "u1"
           "Read me" "doc" file false 1711929600000 b b H1).
Defined.


Lemma moveToTrash_remove_failure_witness :
  let b := Demo.with_outage Outages.remove_down Demo.backend in
  let path := "u1/1709251200000_tax_Return_2023.pdf" in
  let trashed := "u1/trash/1709251200000_tax_Return_2023.pdf" in
  let b1 := (Backend.respond (StorageCopy path trashed) b).2 in
  Backend.respond (StorageCopy path trashed) b = (None, b1)
  /\ Backend.respond (StorageRemove [path]) b1 = (Some "remove refused", b1)
  /\ run Backend.respond (moveToTrash "u1" path) b
     = (Raised "remove refused", b1,
        [StorageCopy path trashed; StorageRemove [path]])
  /\ Backend.objects b1 !! path = Some (Demo.obj 5 "2024-03-01T00:00:00.000Z")
  /\ Backend.objects b1 !! trashed
     = Some (Demo.obj 5 "2024-04-01T00:00:00.000Z").
Proof.
  intros b path trashed b1.
  assert (H1 : Backend.respond (StorageCopy path trashed) b = (None, b1))
    by reflexivity.
  assert (H2 : Backend.respond (StorageRemove [path]) b1
               = (Some "remove refused", b1)) by reflexivity.
  split_and!; [exact H1|exact H2| |vm_compute; reflexivity
              |vm_compute; reflexivity].
  exact (moveToTrash_remove_failure Backend.respond "u1" path "remove refused"
           b b1 b1 H1 H2).
Defined.

Lemma moveToTrash_success_witness :
  let b := Demo.with_outage Outages.tables_down Demo.backend in
  let path := "u1/1709251200000_tax_Return_2023.pdf" in
  let trashed := "u1/trash/1709251200000_tax_Return_2023.pdf" in
  let b1 := (Backend.respond (StorageCopy path trashed) b).2 in
  let b2 := (Backend.respond (StorageRemove [path]) b1).2 in
  Backend.respond (StorageCopy path trashed) b = (None, b1)
  /\ Backend.respond (StorageRemove [path]) b1 = (None, b2)
  /\ (run Backend.respond (moveToTrash "u1" path) b).1.1 = Returned tt
  /\ length (run Backend.respond (moveToTrash "u1" path) b).2 = 10%nat.
Proof.
  intros b path trashed b1 b2.
  assert (H1 : Backend.respond (StorageCopy path trashed) b = (None, b1))
    by reflexivity.
  assert (H2 : Backend.respond (StorageRemove [path]) b1 = (None, b2))
    by reflexivity.
  split_and!; [exact H1|exact H2| |vm_compute; reflexivity].
  exact (proj1 (moveToTrash_success Backend.respond "u1" path b b1 b2 H1 H2)).
Defined.

Lemma moveToTrash_trailing_slash_witness :
  let b := Outages.with_marker in
  let path := "u1/drafts" +:+ "/" in
  let b1 := (Backend.respond (StorageCopy path ("u1" +:+ "/trash/")) b).2 in
  let b2 := (Backend.respond (StorageRemove [path]) b1).2 in
  Backend.respond (StorageCopy path ("u1" +:+ "/trash/")) b = (None, b1)
  /\ Backend.respond (StorageRemove [path]) b1 = (None, b2)
  /\ last (List.filter is_remote
             (run Backend.respond (moveToTrash "u1" path) b).2)
     = Some (TableUpsert deleted_documents
               {| user_id := "u1"; document_path := path;
                  document_name := "unknown" |}).
Proof.
  intros b path b1 b2.
  assert (H1 : Backend.respond (StorageCopy path ("u1" +:+ "/trash/")) b
               = (None, b1)) by reflexivity.
  assert (H2 : Backend.respond (StorageRemove [path]) b1 = (None, b2))
    by reflexivity.
  split_and!; [exact H1|exact H2|].
  exact (proj2 (moveToTrash_trailing_slash Backend.respond "u1" "u1/drafts"
                  b b1 b2 H1 H2)).
Defined.

Lemma restoreFromTrash_after_copy_witness :
  let b := Demo.with_outage Outages.remove_and_tables_down Demo.backend in
  let src := "u1/trash/1709251200000_old_Lease.pdf" in
  let dest := "u1/1711929600000_1709251200000_old_Lease.pdf" in
  let b1 := (Backend.respond (StorageCopy src dest) b).2 in
  Backend.respond DateNow b = (1711929600000, b)
  /\ Backend.respond (StorageCopy src dest) b = (None, b1)
  /\ Backend.respond (StorageRemove [src]) b1 = (Some "remove refused", b1)
  /\ Backend.respond (TableDelete deleted_documents "u1" src) b1
     = (Some "table unavailable", b1)
  /\ (run Backend.respond
        (restoreFromTrash Demo.getPublicUrl "u1" "1709251200000_old_Lease.pdf")
        b).1.1
     = Returned {| Stored.publicUrl := Demo.getPublicUrl dest;
                   Stored.path := dest |}
  /\ (run Backend.respond
        (restoreFromTrash Demo.getPublicUrl "u1" "1709251200000_old_Lease.pdf")
        b).2
     = [DateNow; StorageCopy src dest; StorageRemove [src];
        TableDelete deleted_documents "u1" src;
        ConsoleWarn "Failed to remove from deleted documents tracking:"
          "table unavailable"].
Proof.
  intros b src dest b1.
  assert (H1 : Backend.respond DateNow b = (1711929600000, b)) by reflexivity.
  assert (H2 : Backend.respond (StorageCopy src dest) b = (None, b1))
    by reflexivity.
  assert (H3 : Backend.respond (StorageRemove [src]) b1
               = (Some "remove refused", b1)) by reflexivity.
  assert (H4 : Backend.respond (TableDelete deleted_documents "u1" src) b1
               = (Some "table unavailable", b1)) by reflexivity.
  assert (Hrun :
    run Backend.respond
      (restoreFromTrash Demo.getPublicUrl "u1" "1709251200000_old_Lease.pdf") b
    = (Returned {| Stored.publicUrl := Demo.getPublicUrl dest;
                   Stored.path := dest |},
       (Backend.respond
          (ConsoleWarn "Failed to remove from deleted documents tracking:"
             "table unavailable") b1).2,
       [DateNow; StorageCopy src dest; StorageRemove [src];
        TableDelete deleted_documents "u1" src;
        ConsoleWarn "Failed to remove from deleted documents tracking:"
          "table unavailable"]))
    by exact (restoreFromTrash_after_copy Backend.respond Demo.getPublicUrl
                "u1" "1709251200000_old_Lease.pdf" 1711929600000 b b b1
                H1 H2).
  split_and!; [exact H1|exact H2|exact H3|exact H4
              |by rewrite Hrun|by rewrite Hrun].
Defined.

Lemma purgeOldTrash_listing_failure_witness :
  let b := Demo.with_outage Demo.list_down Demo.backend in
  Backend.respond DateNow b = (1711929600000, b)
  /\ Backend.respond (StorageList "u1/trash" 100) b
     = (ListErr "listing refused", b)
  /\ run Backend.respond
       (purgeOldTrash Demo.getPublicUrl Demo.getTime "u1" 30) b
     = (Raised "listing refused", b, [DateNow; StorageList "u1/trash" 100]).
Proof.
  intros b.
  assert (H1 : Backend.respond DateNow b = (1711929600000, b)) by reflexivity.
  assert (H2 : Backend.respond (StorageList "u1/trash" 100) b
               = (ListErr "listing refused", b)) by reflexivity.
  split_and!; [exact H1|exact H2|].
  exact (purgeOldTrash_listing_failure Backend.respond Demo.getPublicUrl
           Demo.getTime "u1" 30 1711929600000 "listing refused" b b b H1 H2).
Defined.

Lemma purgeable_shorter_retention_witness :
  let t := {| TrashRecord.name := "1709251200000_old_Lease.pdf";
              TrashRecord.path := "u1/trash/1709251200000_old_Lease.pdf";
              TrashRecord.publicUrl := "";
              TrashRecord.size := 5;
              TrashRecord.deletedAt := "2024-03-01T00:00:00.000Z" |} in
  7 <= 30
  /\ purgeable Demo.getTime (1711929600000 - 30 * 24 * 60 * 60 * 1000) t = true
  /\ purgeable Demo.getTime (1711929600000 - 7 * 24 * 60 * 60 * 1000) t = true.
Proof.
  intros t.
  assert (H1 : 7 <= 30) by lia.
  assert (H2 : purgeable Demo.getTime
                 (1711929600000 - 30 * 24 * 60 * 60 * 1000) t = true)
    by reflexivity.
  split_and!; [exact H1|exact H2|].
  exact (purgeable_shorter_retention Demo.getTime 1711929600000 7 30 t H1 H2).
Defined.

Lemma deletePermanent_of_trash_record_witness :
  let b := Demo.backend in
  let listed := {| FileObject.name := "1709251200000_old_Lease.pdf";
                   FileObject.created_at := "2024-03-01T00:00:00.000Z";
                   FileObject.metadata :=
                     Some {| FileObject.size := Some 5%N |} |} in
  let path := "u1/trash/1709251200000_old_Lease.pdf" in
  Js.includes "/" "u1" = false
  /\ In listed (Backend.list_dir "u1/trash" 100 b)
  /\ List.filter is_remote (run Backend.respond (deletePermanent path) b).2
     = [StorageRemove [path];
        TableDelete smart_folder_assignments "u1" path;
        TableDelete document_shares "u1" path;
        TableDelete deleted_documents "u1" path].
Proof.
  intros b listed path.
  assert (H1 : Js.includes "/" "u1" = false) by reflexivity.
  split_and!; [exact H1|vm_compute; auto|].
  exact (proj2 (deletePermanent_of_trash_record Backend.respond
                  Demo.getPublicUrl "u1" listed b H1)).
Defined.
